(** * ci-build-matrix: the build-matrix generator of the CI scripts

    A shallow embedding of [.github/scripts/ci-build-matrix.py] and the
    properties its specification states about it.

    Conventions of the embedding.
    - A Python [str] is a Rocq [string]; a character is a code point below
      256.  [str.encode()] is UTF-8, so code points from 128 on take two bytes.
    - A Python [int] is a [Z].
    - An element, the dict [{"name": .., "state": .., "key": ..}], is the
      record [element].
    - The dicts [matrix] and [cache_keys] are [gmap string string].
    - [hashlib.sha256] is SHA-256 as in FIPS 180-4, on 32-bit words held in
      [Z] with the wrap-around written out. *)

From Stdlib Require Import ZArith Ascii String List Lia Permutation Sorted.
From Stdlib Require Import DecimalString DecimalZ.
From stdpp Require Import base list sorting strings gmap fin_maps.

(** ** Python primitives used by the script *)

Module Py.

(** [str(i)] for an int, the text an f-string puts for [{index}]. *)
Definition str_of_int (i : Z) : string :=
  NilEmpty.string_of_int (Z.to_int i).

(** Truth value of a string: [if s] holds for a non-empty string. *)
Definition truthy (s : string) : bool :=
  match s with
  | EmptyString => false
  | String _ _ => true
  end.

(** [sep.join(parts)]. *)
Definition join (sep : string) (parts : list string) : string :=
  String.concat sep parts.

(** The characters [str.strip()] removes: the code points below 256 for
    which [str.isspace()] holds. *)
Definition is_space (c : ascii) : bool :=
  match N_of_ascii c with
  | 9 | 10 | 11 | 12 | 13 | 28 | 29 | 30 | 31 | 32 | 133 | 160 => true
  | _ => false
  end%N.

Fixpoint lstrip (s : string) : string :=
  match s with
  | EmptyString => EmptyString
  | String c r => if is_space c then lstrip r else s
  end.

(** Removes trailing white space: a character is kept when it is not white
    space or when something is kept after it. *)
Fixpoint rstrip (s : string) : string :=
  match s with
  | EmptyString => EmptyString
  | String c r =>
      match rstrip r with
      | EmptyString => if is_space c then EmptyString else String c EmptyString
      | r' => String c r'
      end
  end.

(** [s.strip()]. *)
Definition strip (s : string) : string := rstrip (lstrip s).

(** [s.split(sep)] for a non-empty [sep]: the separators are found from the
    left and do not overlap.  [skip] counts the characters of a separator
    that was just matched and are still to be passed over. *)
Fixpoint split_go (sep : string) (skip : nat) (s : string) : list string :=
  match s with
  | EmptyString => [EmptyString]
  | String c r =>
      match skip with
      | S k => split_go sep k r
      | O =>
          if String.prefix sep s
          then EmptyString :: split_go sep (String.length sep - 1) r
          else match split_go sep 0 r with
               | h :: t => String c h :: t
               | [] => [String c EmptyString]
               end
      end
  end.

Definition split (sep : string) (s : string) : list string :=
  split_go sep 0 s.

(** [s.rsplit(sep, 1)] for a one-character [sep]: [None] when [sep] does not
    occur, else the text before and after its last occurrence. *)
Fixpoint rsplit1_go (sep : ascii) (s : string) : option (string * string) :=
  match s with
  | EmptyString => None
  | String c r =>
      match rsplit1_go sep r with
      | Some (h, t) => Some (String c h, t)
      | None => if Ascii.eqb c sep then Some (EmptyString, r) else None
      end
  end.

Definition rsplit1 (sep : ascii) (s : string) : list string :=
  match rsplit1_go sep s with
  | Some (h, t) => [h; t]
  | None => [s]
  end.

(** [parts[-1]] of a list of strings that [rsplit] returned (never empty). *)
Definition last_part (parts : list string) : string :=
  List.last parts EmptyString.

(** [s.replace(old, new)] for a non-empty [old]: every occurrence, found
    from the left, without overlap. *)
Fixpoint replace_go (old new : string) (skip : nat) (s : string) : string :=
  match s with
  | EmptyString => EmptyString
  | String c r =>
      match skip with
      | S k => replace_go old new k r
      | O =>
          if String.prefix old s
          then new +:+ replace_go old new (String.length old - 1) r
          else String c (replace_go old new 0 r)
      end
  end.

Definition replace (old new : string) (s : string) : string :=
  replace_go old new 0 s.

(** [sorted(keys)] on strings: ascending by code point.  The order is total
    and equal strings are identical, so every sorting algorithm returns the
    same list; the model is a merge sort. *)
Definition sorted (keys : list string) : list string :=
  merge_sort String.le keys.

(** [data[:k]]: a negative [k] counts from the end. *)
Definition slice_to {A} (data : list A) (k : Z) : list A :=
  if (k <? 0)%Z
  then firstn (Z.to_nat (Z.of_nat (length data) + k)) data
  else firstn (Z.to_nat k) data.

(** [data[k:]]: a negative [k] counts from the end. *)
Definition slice_from {A} (data : list A) (k : Z) : list A :=
  if (k <? 0)%Z
  then skipn (Z.to_nat (Z.of_nat (length data) + k)) data
  else skipn (Z.to_nat k) data.

(** [data[start::step]] for [0 <= start] and [1 <= step]: the elements at
    the indices [start], [start + step], [start + 2*step], ...  [skip] is
    the number of elements to pass over before the next one is taken.
    (Python raises ValueError for a step of 0; the script never asks.) *)
Fixpoint slice_step_go {A} (step : nat) (skip : nat) (data : list A) : list A :=
  match data with
  | [] => []
  | x :: rest =>
      match skip with
      | O => x :: slice_step_go step (step - 1) rest
      | S k => slice_step_go step k rest
      end
  end.

Definition slice_step {A} (data : list A) (start step : nat) : list A :=
  slice_step_go step start data.

(** [range(n)]: empty for [n <= 0]. *)
Definition range (n : Z) : list nat := seq 0 (Z.to_nat n).

(** [enumerate(l)]. *)
Definition enumerate {A} (l : list A) : list (Z * A) :=
  imap (fun i x => (Z.of_nat i, x)) l.

(** [s.encode()]: UTF-8 of the code points, as a list of bytes. *)
Definition encode_char (c : ascii) : list Z :=
  let n := Z.of_N (N_of_ascii c) in
  if (n <? 128)%Z then [n]
  else [Z.lor 192 (Z.shiftr n 6); Z.lor 128 (Z.land n 63)].

Fixpoint encode (s : string) : list Z :=
  match s with
  | EmptyString => []
  | String c r => encode_char c ++ encode r
  end.

(** The characters below 256 at which [str.splitlines()] cuts. *)
Definition is_line_break (c : ascii) : bool :=
  match N_of_ascii c with
  | 10 | 11 | 12 | 13 | 28 | 29 | 30 | 133 => true
  | _ => false
  end%N.

(** [s.splitlines()]: the lines of [s] without their ends; a carriage return
    followed by a line feed is one end, and the text after the last end is a
    line only when it is not empty. *)
Fixpoint splitlines (s : string) : list string :=
  match s with
  | EmptyString => []
  | String c r =>
      if is_line_break c then
        match r with
        | String c' r' =>
            if Ascii.eqb c "013" && Ascii.eqb c' "010"
            then EmptyString :: splitlines r'
            else EmptyString :: splitlines r
        | EmptyString => [EmptyString]
        end
      else
        match splitlines r with
        | [] => [String c EmptyString]
        | h :: t => String c h :: t
        end
  end.

End Py.

(** ** SHA-256 (FIPS 180-4), the digest behind [hashlib.sha256] *)

Module Sha256.
Local Open Scope Z_scope.

Definition wrap (x : Z) : Z := x mod 2 ^ 32.
Definition add32 (x y : Z) : Z := wrap (x + y).
Definition not32 (x : Z) : Z := Z.lxor x 0xffffffff.
Definition rotr (n x : Z) : Z :=
  wrap (Z.lor (Z.shiftr x n) (Z.shiftl x (32 - n))).
Definition shr (n x : Z) : Z := Z.shiftr x n.

Definition Ch (x y z : Z) : Z := Z.lxor (Z.land x y) (Z.land (not32 x) z).
Definition Maj (x y z : Z) : Z :=
  Z.lxor (Z.lxor (Z.land x y) (Z.land x z)) (Z.land y z).
Definition Sigma0 (x : Z) : Z :=
  Z.lxor (Z.lxor (rotr 2 x) (rotr 13 x)) (rotr 22 x).
Definition Sigma1 (x : Z) : Z :=
  Z.lxor (Z.lxor (rotr 6 x) (rotr 11 x)) (rotr 25 x).
Definition sigma0 (x : Z) : Z :=
  Z.lxor (Z.lxor (rotr 7 x) (rotr 18 x)) (shr 3 x).
Definition sigma1 (x : Z) : Z :=
  Z.lxor (Z.lxor (rotr 17 x) (rotr 19 x)) (shr 10 x).

(** The constants of the standard come from the first 64 primes: the round
    constants are the first 32 bits of the fractional parts of their cube
    roots, the initial hash value those of the square roots of the first 8. *)
Definition is_prime (n : Z) : bool :=
  forallb (fun d => negb (n mod Z.of_nat d =? 0)) (seq 2 (Z.to_nat n - 2)).

Definition primes : list Z :=
  List.filter is_prime (map Z.of_nat (seq 2 310)).

(** The integer cube root of [n] below [2 ^ 36], bit by bit from the top. *)
Definition cube_root (n : Z) : Z :=
  fold_left (fun r b => let r' := r + 2 ^ Z.of_nat b in
                        if r' * r' * r' <=? n then r' else r)
            (rev (seq 0 36)) 0.

Definition frac_cube_root (p : Z) : Z := wrap (cube_root (p * 2 ^ 96)).
Definition frac_sqrt (p : Z) : Z := wrap (Z.sqrt (p * 2 ^ 64)).

Definition K : list Z := Eval vm_compute in map frac_cube_root primes.

(** The hash value: eight 32-bit words. *)
Record hash := Hash { ha : Z; hb : Z; hc : Z; hd : Z;
                      he : Z; hf : Z; hg : Z; hh : Z }.

Definition H0 : hash :=
  Eval vm_compute in
    match map frac_sqrt (firstn 8 primes) with
    | [a; b; c; d; e; f; g; h] => Hash a b c d e f g h
    | _ => Hash 0 0 0 0 0 0 0 0
    end.

(** Big-endian bytes of a length in bits, 64 bits wide. *)
Definition be64 (n : Z) : list Z :=
  map (fun i => Z.land (Z.shiftr n (8 * (7 - Z.of_nat i))) 255) (seq 0 8).

(** Padding: a 1 bit, zeros up to 56 modulo 64 bytes, then the length. *)
Definition pad (msg : list Z) : list Z :=
  let len := Z.of_nat (length msg) in
  msg ++ [0x80] ++ repeat 0 (Z.to_nat ((55 - len) mod 64)) ++ be64 (8 * len).

Fixpoint words_of_bytes (bs : list Z) : list Z :=
  match bs with
  | b0 :: b1 :: b2 :: b3 :: rest =>
      Z.lor (Z.lor (Z.shiftl b0 24) (Z.shiftl b1 16))
            (Z.lor (Z.shiftl b2 8) b3)
      :: words_of_bytes rest
  | _ => []
  end.

(** The message schedule, held newest word first: [rw] is
    [W(t-1) :: W(t-2) :: ...]. *)
Definition next_word (rw : list Z) : Z :=
  add32 (add32 (sigma1 (nth 1 rw 0)) (nth 6 rw 0))
        (add32 (sigma0 (nth 14 rw 0)) (nth 15 rw 0)).

Fixpoint extend (n : nat) (rw : list Z) : list Z :=
  match n with
  | O => rw
  | S n' => extend n' (next_word rw :: rw)
  end.

Definition schedule (block_words : list Z) : list Z :=
  rev (extend 48 (rev block_words)).

Definition round (h : hash) (kw : Z * Z) : hash :=
  let '(k, w) := kw in
  let t1 := add32 (add32 (add32 (hh h) (Sigma1 (he h)))
                         (add32 (Ch (he h) (hf h) (hg h)) k)) w in
  let t2 := add32 (Sigma0 (ha h)) (Maj (ha h) (hb h) (hc h)) in
  Hash (add32 t1 t2) (ha h) (hb h) (hc h)
       (add32 (hd h) t1) (he h) (hf h) (hg h).

Definition compress (h : hash) (block : list Z) : hash :=
  let w := schedule (words_of_bytes block) in
  let r := fold_left round (combine K w) h in
  Hash (add32 (ha h) (ha r)) (add32 (hb h) (hb r))
       (add32 (hc h) (hc r)) (add32 (hd h) (hd r))
       (add32 (he h) (he r)) (add32 (hf h) (hf r))
       (add32 (hg h) (hg r)) (add32 (hh h) (hh r)).

(** The 64-byte blocks of a padded message; [n] is their number. *)
Fixpoint blocks (n : nat) (bs : list Z) : list (list Z) :=
  match n with
  | O => []
  | S n' => firstn 64 bs :: blocks n' (skipn 64 bs)
  end.

Definition digest (msg : list Z) : hash :=
  let p := pad msg in
  fold_left compress (blocks (length p / 64) p) H0.

Definition hex_digit (n : Z) : ascii :=
  nth (Z.to_nat n)
      [ "0"; "1"; "2"; "3"; "4"; "5"; "6"; "7";
        "8"; "9"; "a"; "b"; "c"; "d"; "e"; "f" ]%char "0"%char.

Definition nibble (w : Z) (i : Z) : ascii :=
  hex_digit (Z.land (Z.shiftr w (4 * i)) 15).

(** The eight lower-case hexadecimal digits of a word, followed by [k]. *)
Definition hex32 (w : Z) (k : string) : string :=
  String (nibble w 7) (String (nibble w 6) (String (nibble w 5)
    (String (nibble w 4) (String (nibble w 3) (String (nibble w 2)
      (String (nibble w 1) (String (nibble w 0) k))))))).

(** [hashlib.sha256(bytes).hexdigest()]. *)
Definition hexdigest (msg : list Z) : string :=
  let h := digest msg in
  hex32 (ha h) (hex32 (hb h) (hex32 (hc h) (hex32 (hd h)
    (hex32 (he h) (hex32 (hf h) (hex32 (hg h) (hex32 (hh h) ""))))))).

End Sha256.

(** ** The script *)

(** One element of the build plan: [{"name": .., "state": .., "key": ..}]. *)
Record element := Element {
  e_name : string;
  e_state : string;
  e_key : string
}.

(** Exceptions the script can meet.  [subprocess.run(.., check=True)] raises
    [CalledProcessError]; the parsing loop catches [ValueError] and
    [IndexError] only. *)
Inductive exn := CalledProcessError | ValueError | IndexError.

Inductive outcome (A : Type) :=
| Raise (e : exn)
| Return (a : A).
Arguments Raise {A} e.
Arguments Return {A} a.

#[global] Instance outcome_ret : MRet outcome := fun A a => Return a.

#[global] Instance outcome_bind : MBind outcome := fun A B k m =>
  match m with
  | Raise e => Raise e
  | Return a => k a
  end.

(** [parts[i]]: IndexError out of range. *)
Definition item {A} (parts : list A) (i : nat) : outcome A :=
  match parts !! i with
  | Some x => Return x
  | None => Raise IndexError
  end.

Definition newline : string := String "010"%char "".

(** The body of the [try] of [get_build_plan] for one line: the list
    [elements] after the line, or the exception that left the body. *)
Definition parse_line (line : string) (elements : list element)
  : outcome (list element) :=
  let parts := Py.split "||" line in
  if (length parts <? 2)%nat then Return elements
  else
    p0 ← item parts 0;
    let name := Py.strip p0 in
    p1 ← item parts 1;
    let state := Py.strip p1 in
    full_key ← (if (2 <? length parts)%nat
                then p2 ← item parts 2; Return (Py.strip p2)
                else Return "");
    if negb (String.eqb state "cached")
    then Return (elements ++ [Element name state full_key])
    else Return elements.

(** [except (ValueError, IndexError)]. *)
Definition caught (e : exn) : bool :=
  match e with
  | ValueError | IndexError => true
  | CalledProcessError => false
  end.

(** The loop of [get_build_plan] over the lines of [result.stdout], with the
    list built so far and the text written to stderr so far. *)
Fixpoint plan_loop (lines : list string) (elements : list element)
    (stderr : list string) : outcome (list element) * list string :=
  match lines with
  | [] => (Return elements, stderr)
  | line :: rest =>
      if negb (Py.truthy (Py.strip line)) then plan_loop rest elements stderr
      else
        match parse_line line elements with
        | Return elements' => plan_loop rest elements' stderr
        | Raise e =>
            if caught e
            then plan_loop rest elements
                   (stderr ++ ["Skipping malformed line: " +:+ line])
            else (Raise e, stderr)
        end
  end.

(** [get_build_plan(target)].  [bst] is what [subprocess.run] gave: the lines
    of the standard output of [bst show], or the exception it raised.  The
    result is the returned list (or the exception that left the function) and
    what was written to stderr. *)
Definition get_build_plan (bst : outcome (list string))
  : outcome (list element) * list string :=
  match bst with
  | Raise e => (Raise e, [])
  | Return lines => plan_loop lines [] []
  end.

(** [chunk_list(data, num_chunks)]. *)
Definition chunk_list {A} (data : list A) (num_chunks : Z) : list (list A) :=
  map (fun i => Py.slice_step data i (Z.to_nat num_chunks))
      (Py.range num_chunks).

(** [make_chunk_name(index, elements)]. *)
Definition make_chunk_name (index : Z) (elements : list element) : string :=
  match elements with
  | [] => "chunk" +:+ Py.str_of_int index
  | e :: _ =>
      let first := e_name e in
      let label :=
        Py.replace ".bst" "" (Py.last_part (Py.rsplit1 "/"%char first)) in
      "chunk" +:+ Py.str_of_int index +:+ "-" +:+ label
  end.

(** [compute_cache_key(elements)]. *)
Definition compute_cache_key (elements : list element) : string :=
  let keys :=
    Py.sorted (map e_key (List.filter (fun e => Py.truthy (e_key e)) elements)) in
  match keys with
  | [] => ""
  | _ :: _ =>
      let combined := Py.join newline keys in
      Sha256.hexdigest (Py.encode combined)
  end.

(** The object [main] prints as JSON. *)
Record result := Result {
  r_core : string;
  r_matrix : gmap string string;
  r_cache_keys : gmap string string;
  r_final : string
}.

(** The helper calls [main] makes after the plan is known, in order. *)
Inductive call :=
| Call_chunk_list
| Call_make_chunk_name
| Call_compute_cache_key.

(** [elements[:core_split]] and [elements[core_split:]]. *)
Definition core_elements (elements : list element) (core_split : Z) :=
  Py.slice_to elements core_split.

Definition leaf_elements (elements : list element) (core_split : Z) :=
  Py.slice_from elements core_split.

(** The names of a group, joined by one space. *)
Definition targets (group : list element) : string :=
  Py.join " " (map e_name group).

(** The variable [chunks] of [main], with the helper call it costs. *)
Definition split_leaves (leaf : list element) (num_chunks : Z)
  : list (list element) * list call :=
  match leaf with
  | _ :: _ =>
      if (0 <? num_chunks)%Z
      then (chunk_list leaf (Z.min num_chunks (Z.of_nat (length leaf))),
            [Call_chunk_list])
      else ([], [])
  | [] => ([], [])
  end.

Definition chunks_of (elements : list element) (core_split num_chunks : Z)
  : list (list element) :=
  fst (split_leaves (leaf_elements elements core_split) num_chunks).

(** The state of the loop that builds the matrix. *)
Record matrix_state := MatrixState {
  ms_matrix : gmap string string;
  ms_cache_keys : gmap string string;
  ms_calls : list call
}.

(** One turn of [for i, chunk in enumerate(chunks)]. *)
Definition matrix_step (st : matrix_state) (ic : Z * list element)
  : matrix_state :=
  let '(i, chunk) := ic in
  match chunk with
  | [] => st
  | _ :: _ =>
      let name := make_chunk_name i chunk in
      let matrix := <[name := targets chunk]> (ms_matrix st) in
      let key := compute_cache_key chunk in
      let cache_keys :=
        if Py.truthy key then <[name := key]> (ms_cache_keys st)
        else ms_cache_keys st in
      MatrixState matrix cache_keys
        (ms_calls st ++ [Call_make_chunk_name; Call_compute_cache_key])
  end.

Definition build_matrix (chunks : list (list element)) : matrix_state :=
  fold_left matrix_step (Py.enumerate chunks) (MatrixState ∅ ∅ []).

(** What one run of [main] leaves: the printed object and the helper calls
    that were made. *)
Record run := Run {
  out : result;
  trace : list call
}.

(** [main] from line 93 on, once [elements] is known. *)
Definition main_body (target : string) (num_chunks core_split : Z)
    (elements : list element) : run :=
  match elements with
  | [] => Run (Result "" ∅ ∅ target) []
  | _ :: _ =>
      let core_targets := targets (core_elements elements core_split) in
      let '(chunks, c1) :=
        split_leaves (leaf_elements elements core_split) num_chunks in
      let st := build_matrix chunks in
      Run (Result core_targets (ms_matrix st) (ms_cache_keys st) target)
          (c1 ++ ms_calls st)
  end.

(** [main()] after its arguments are read: [target], [num_chunks] and
    [core_split] are [sys.argv[1]], [int(sys.argv[2])] and [int(sys.argv[3])]
    (200 when absent).  The result is the run (or the exception that ended
    it) and what was written to stderr. *)
Definition main (target : string) (num_chunks core_split : Z)
    (bst : outcome (list string)) : outcome run * list string :=
  match get_build_plan bst with
  | (Raise e, stderr) => (Raise e, stderr)
  | (Return elements, stderr) =>
      (Return (main_body target num_chunks core_split elements),
       stderr ++ ["Found " +:+ Py.str_of_int (Z.of_nat (length elements))
                  +:+ " elements to build"])
  end.

(** ** Notions of the specification *)

(** The chunks that get an entry of the matrix: those that pass
    [if not chunk: continue]. *)
Definition emitted (chunks : list (list element)) : list (list element) :=
  List.filter (fun c => match c with [] => false | _ :: _ => true end) chunks.

(** The entries the loop writes: the name and the members of every chunk that
    is not empty, in the order of the chunks. *)
Definition named_chunks (chunks : list (list element))
  : list (string * list element) :=
  flat_map (fun ic : Z * list element =>
              match snd ic with
              | [] => []
              | _ :: _ => [(make_chunk_name (fst ic) (snd ic), snd ic)]
              end)
           (Py.enumerate chunks).

(** Round [k] of dealing the chunks back: the [k]-th member of every chunk
    that has one, in the order of the chunks. *)
Definition column {A} (k : nat) (chunks : list (list A)) : list A :=
  flat_map (fun c => option_list (c !! k)) chunks.

(** Interleaving: round 0, then round 1, and so on. *)
Definition interleave {A} (chunks : list (list A)) : list A :=
  flat_map (fun k => column k chunks)
           (seq 0 (max_list (map length chunks))).

(** The keys of a list of elements that are not empty. *)
Definition nonempty_keys (elements : list element) : list string :=
  List.filter Py.truthy (map e_key elements).

(** [occurs sub s]: [sub] is a substring of [s]. *)
Fixpoint occurs (sub s : string) : bool :=
  String.prefix sub s ||
  match s with
  | EmptyString => false
  | String _ r => occurs sub r
  end.

(** The last path segment, in the words of the specification: as long as a
    slash occurs, the leading character belongs to the directory prefix. *)
Fixpoint last_segment (s : string) : string :=
  match s with
  | EmptyString => EmptyString
  | String _ r => if occurs "/" s then last_segment r else s
  end.

(** [s] without the suffix [suffix], when it ends with it. *)
Fixpoint strip_suffix (suffix s : string) : string :=
  if String.eqb s suffix then EmptyString
  else match s with
       | EmptyString => EmptyString
       | String c r => String c (strip_suffix suffix r)
       end.

(** The chunk name as the specification words it. *)
Definition spec_chunk_name (index : Z) (elements : list element) : string :=
  match elements with
  | [] => "chunk" +:+ Py.str_of_int index
  | e :: _ =>
      "chunk" +:+ Py.str_of_int index +:+ "-"
      +:+ strip_suffix ".bst" (last_segment (e_name e))
  end.

(** The fields of a line of the plan. *)
Definition fields (line : string) : list string := Py.split "||" line.

(** A line is well formed when it has a name and a state. *)
Definition well_formed (line : string) : bool :=
  (2 <=? length (fields line))%nat.

(** The element a well-formed line stands for. *)
Definition element_of_line (line : string) : element :=
  Element (Py.strip (nth 0 (fields line) ""))
          (Py.strip (nth 1 (fields line) ""))
          (match fields line !! 2 with
           | Some k => Py.strip k
           | None => ""
           end).

(** The elements the filter is to retain: those of the well-formed lines whose
    state is not the cached marker, in the order of the lines. *)
Definition retained (lines : list string) : list element :=
  List.filter (fun e => negb (String.eqb (e_state e) "cached"))
              (map element_of_line (List.filter well_formed lines)).

(** The entry of the cache-key mapping a chunk gets: none when its composite
    key is the empty string. *)
Definition cache_entry (chunk : list element) : option string :=
  let key := compute_cache_key chunk in
  if Py.truthy key then Some key else None.

(** The mapping from the name of every emitted chunk to its members. *)
Definition chunk_map (chunks : list (list element))
  : gmap string (list element) :=
  list_to_map (named_chunks chunks).

(** Strings made of decimal digits only. *)
Fixpoint all_digits (s : string) : bool :=
  match s with
  | EmptyString => true
  | String c r =>
      match Ascii.is_nat c with
      | Some _ => all_digits r
      | None => false
      end
  end.

(** The plan of the scenario of the specification. *)
Definition scenario_lines : list string :=
  ["a||waiting||k1"; "b||cached||k2"; "c||waiting||k3"; "d||waiting||"].

(** ** The rest of [main], and the format of the plan *)

(** The line [bst show] prints for an element under the format
    ["%{name}||%{state}||%{full-key}"] that [get_build_plan] asks for. *)
Definition format_line (e : element) : string :=
  e_name e +:+ "||" +:+ e_state e +:+ "||" +:+ e_key e.

(** The standard output of [bst show] for a plan: the line of every element,
    each ended by a line feed. *)
Fixpoint stdout_of (elements : list element) : string :=
  match elements with
  | [] => ""
  | e :: rest => format_line e +:+ newline +:+ stdout_of rest
  end.

(** Strings that hold none of the characters at which lines are cut. *)
Fixpoint no_line_break (s : string) : bool :=
  match s with
  | EmptyString => true
  | String c r => negb (Py.is_line_break c) && no_line_break r
  end.

(** An element whose line reads back as it was written: no field holds a
    vertical bar or a character that ends a line, none has white space around
    it, and the state is not the cached marker. *)
Definition printable (e : element) : Prop :=
  occurs "|" (e_name e) = false
  /\ occurs "|" (e_state e) = false
  /\ occurs "|" (e_key e) = false
  /\ no_line_break (e_name e) = true
  /\ no_line_break (e_state e) = true
  /\ no_line_break (e_key e) = true
  /\ Py.strip (e_name e) = e_name e
  /\ Py.strip (e_state e) = e_state e
  /\ Py.strip (e_key e) = e_key e
  /\ e_state e <> "cached".

(** Lower-case hexadecimal digits. *)
Definition is_hex (c : ascii) : bool :=
  match c with
  | "0" | "1" | "2" | "3" | "4" | "5" | "6" | "7" | "8" | "9"
  | "a" | "b" | "c" | "d" | "e" | "f" => true
  | _ => false
  end%char.

Fixpoint all_hex (s : string) : bool :=
  match s with
  | EmptyString => true
  | String c r => is_hex c && all_hex r
  end.

(** How the process ends: [sys.exit(status)], an exception nobody caught, or
    the JSON object on the standard output. *)
Inductive process_end :=
| Exited (status : Z)
| Traceback (e : exn)
| Printed (r : run).

Section Argv.
(** The builtin [int] on a string: the number, or ValueError. *)
Variable int : string -> outcome Z.

(** The arguments of [main]: [target], [num_chunks] and [core_split] read off
    [sys.argv], in the order of the source. *)
Definition read_args (argv : list string) : outcome (string * Z * Z) :=
  target ← item argv 1;
  a2 ← item argv 2;
  num_chunks ← int a2;
  core_split ← (if (3 <? length argv)%nat
                then a3 ← item argv 3; int a3
                else Return 200%Z);
  Return (target, num_chunks, core_split).

(** [main()] from [sys.argv] on. *)
Definition main_argv (argv : list string) (bst : outcome (list string))
  : process_end * list string :=
  if (length argv <? 3)%nat then
    match item argv 0 with
    | Raise e => (Traceback e, [])
    | Return prog =>
        (Exited 1,
         ["Usage: " +:+ prog +:+ " <target> <num_chunks> [core_split]"])
    end
  else
    match read_args argv with
    | Raise e => (Traceback e, [])
    | Return (target, num_chunks, core_split) =>
        match main target num_chunks core_split bst with
        | (Raise e, stderr) => (Traceback e, stderr)
        | (Return r, stderr) => (Printed r, stderr)
        end
    end.
End Argv.

(** * Properties *)

(** ** The digest on the test vectors of the standard *)

Example sha256_empty :
  Sha256.hexdigest (Py.encode "")
  = "e3b0c44298fc1c149afbf4c8996fb92427ae41e4649b934ca495991b7852b855".
Proof. vm_compute. reflexivity. Qed.

Example sha256_abc :
  Sha256.hexdigest (Py.encode "abc")
  = "ba7816bf8f01cfea414140de5dae2223b00361a396177a9cb410ff61f20015ad".
Proof. vm_compute. reflexivity. Qed.

Example sha256_two_blocks :
  Sha256.hexdigest
    (Py.encode "abcdbcdecdefdefgefghfghighijhijkijkljklmklmnlmnomnopnopq")
  = "248d6a61d20638b8e5c026930c3e6039a33ce45964ff2167f6ecedd419db06c1".
Proof. vm_compute. reflexivity. Qed.

(** The derived constants are those the standard prints. *)
Example sha256_constants :
  length Sha256.K = 64%nat
  /\ nth 0 Sha256.K 0%Z = 0x428a2f98%Z
  /\ nth 63 Sha256.K 0%Z = 0xc67178f2%Z
  /\ Sha256.ha Sha256.H0 = 0x6a09e667%Z
  /\ Sha256.hh Sha256.H0 = 0x5be0cd19%Z.
Proof. repeat split. Qed.

(** A digest is 64 characters long, hence never the empty string. *)
Lemma hexdigest_nonempty (msg : list Z) : Py.truthy (Sha256.hexdigest msg) = true.
Proof. reflexivity. Qed.

Lemma hexdigest_length (msg : list Z) :
  String.length (Sha256.hexdigest msg) = 64%nat.
Proof. reflexivity. Qed.

(** ** The scenario of the specification, end to end *)

Example scenario_plan :
  get_build_plan (Return scenario_lines)
  = (Return [Element "a" "waiting" "k1"; Element "c" "waiting" "k3";
             Element "d" "waiting" ""], []).
Proof. reflexivity. Qed.

Example scenario_main :
  match fst (main "target.bst" 2 1 (Return scenario_lines)) with
  | Return r =>
      r_core (out r) = "a"
      /\ r_matrix (out r) !! "chunk0-c" = Some "c"
      /\ r_matrix (out r) !! "chunk1-d" = Some "d"
      /\ r_cache_keys (out r) !! "chunk0-c"
         = Some (Sha256.hexdigest (Py.encode "k3"))
      /\ r_cache_keys (out r) !! "chunk1-d" = None
      /\ r_final (out r) = "target.bst"
  | Raise _ => False
  end.
Proof. vm_compute. repeat split. Qed.

(** ** Slices *)

Section Slices.
Context {A : Type}.
Implicit Types (data : list A) (k : Z).

Lemma slice_to_from data k : Py.slice_to data k ++ Py.slice_from data k = data.
Proof.
  unfold Py.slice_to, Py.slice_from.
  destruct (k <? 0)%Z; apply firstn_skipn.
Qed.

Lemma slice_to_nonneg data k :
  (0 <= k)%Z -> Py.slice_to data k = take (Z.to_nat k) data.
Proof.
  intros Hk. unfold Py.slice_to.
  destruct (Z.ltb_spec k 0); [lia | reflexivity].
Qed.

Lemma slice_from_nonneg data k :
  (0 <= k)%Z -> Py.slice_from data k = drop (Z.to_nat k) data.
Proof.
  intros Hk. unfold Py.slice_from.
  destruct (Z.ltb_spec k 0); [lia | reflexivity].
Qed.

(** [data[start::step]] holds at position [k] what [data] holds at position
    [start + k * step]. *)
Lemma slice_step_go_lookup step skip data (k : nat) :
  (1 <= step)%nat ->
  Py.slice_step_go step skip data !! k = data !! (skip + k * step)%nat.
Proof.
  intros Hstep. revert skip k.
  induction data as [|x rest IH]; intros skip k; simpl.
  - by rewrite !lookup_nil.
  - destruct skip as [|s].
    + destruct k as [|k]; simpl; [done|].
      rewrite IH.
      replace (step + k * step)%nat with (S (step - 1 + k * step)) by lia.
      reflexivity.
    + rewrite IH. reflexivity.
Qed.

Lemma slice_step_lookup data (start step k : nat) :
  (1 <= step)%nat ->
  Py.slice_step data start step !! k = data !! (start + k * step)%nat.
Proof. apply slice_step_go_lookup. Qed.

(** The size of [data[start::step]] for a start below the step. *)
Lemma slice_step_length data (start step : nat) :
  (start < step)%nat ->
  length (Py.slice_step data start step)
  = (length data / step
     + (if (start <? length data mod step)%nat then 1 else 0))%nat.
Proof.
  intros Hlt.
  assert (Hstep : (1 <= step)%nat) by lia.
  set (c := Py.slice_step data start step).
  set (L := length data).
  assert (Hin : forall j : nat,
             (j < length c)%nat <-> (start + j * step < L)%nat).
  { intros j. unfold L. rewrite <- !lookup_lt_is_Some.
    unfold c. rewrite slice_step_lookup by done. reflexivity. }
  assert (Hdm := Nat.div_mod_eq L step).
  assert (Hm := Nat.mod_upper_bound L step ltac:(lia)).
  generalize dependent (L mod step)%nat. intros r.
  generalize dependent (L / step)%nat. intros q Hdm Hm.
  generalize dependent (length c). intros n Hin.
  destruct (Nat.ltb_spec start r) as [Hs|Hs].
  - assert (q < n)%nat by (apply Hin; nia).
    assert (~ (S q < n)%nat) by (rewrite Hin; nia).
    lia.
  - assert (~ (q < n)%nat) by (rewrite Hin; nia).
    destruct q as [|q]; [lia|].
    assert (q < n)%nat by (apply Hin; nia).
    lia.
Qed.
End Slices.

(** ** Round-robin chunking *)

Section Chunking.
Context {A : Type}.
Implicit Types (data : list A) (n : Z).

Lemma chunk_list_length data n : length (chunk_list data n) = Z.to_nat n.
Proof. unfold chunk_list, Py.range. by rewrite length_map, length_seq. Qed.

Lemma chunk_list_lookup data n (i : nat) :
  (i < Z.to_nat n)%nat ->
  chunk_list data n !! i = Some (Py.slice_step data i (Z.to_nat n)).
Proof.
  intros Hi. unfold chunk_list, Py.range.
  rewrite list_lookup_fmap, lookup_seq_lt by done. reflexivity.
Qed.

Lemma chunk_list_lookup_inv data n (i : nat) (c : list A) :
  chunk_list data n !! i = Some c ->
  (i < Z.to_nat n)%nat /\ c = Py.slice_step data i (Z.to_nat n).
Proof.
  intros Hc.
  assert (Hi : (i < Z.to_nat n)%nat).
  { apply lookup_lt_Some in Hc. by rewrite chunk_list_length in Hc. }
  rewrite chunk_list_lookup in Hc by done. by simplify_eq.
Qed.

(** A chunk count that does not exceed the number of elements leaves no
    chunk empty: chunk [i] holds the element at index [i]. *)
Lemma chunk_list_nonempty data n (c : list A) :
  (n <= Z.of_nat (length data))%Z -> c ∈ chunk_list data n -> c <> [].
Proof.
  intros Hn [i Hi]%list_elem_of_lookup.
  apply chunk_list_lookup_inv in Hi as [Hi ->].
  assert (Hsome : is_Some (Py.slice_step data i (Z.to_nat n) !! 0%nat)).
  { rewrite slice_step_lookup by lia. apply lookup_lt_is_Some. lia. }
  intros Heq. rewrite Heq in Hsome. by destruct Hsome.
Qed.

(** Chunking one more element: it goes to the front of chunk 0, and the
    chunks before turn by one place. *)
Lemma chunk_list_cons (x : A) data (m : nat) :
  map (fun i => Py.slice_step (x :: data) i (S m)) (seq 0 (S m))
  = (x :: Py.slice_step data m (S m))
    :: map (fun i => Py.slice_step data i (S m)) (seq 0 m).
Proof.
  cbn [seq map]. f_equal.
  - unfold Py.slice_step. cbn [Py.slice_step_go].
    by replace (S m - 1)%nat with m by lia.
  - rewrite <- seq_shift, map_map. reflexivity.
Qed.

(** The chunks together hold the elements of the list, each once. *)
Lemma chunk_list_concat_perm data n :
  (1 <= n)%Z -> concat (chunk_list data n) ≡ₚ data.
Proof.
  intros Hn. unfold chunk_list, Py.range.
  destruct (Z.to_nat n) as [|m] eqn:Hm; [lia|]. clear Hn Hm.
  induction data as [|x data IH].
  - induction (seq 0 (S m)) as [|i l IHl]; [done|].
    cbn [map concat]. by destruct i.
  - rewrite chunk_list_cons. cbn [concat].
    rewrite <- app_comm_cons. apply Permutation_cons; [done|].
    etrans; [|exact IH].
    rewrite (seq_S m), map_app, concat_app. cbn [map concat Nat.add].
    rewrite app_nil_r. apply Permutation_app_comm.
Qed.

Lemma flat_map_map {X B C} (f : B -> list C) (g : X -> B) (l : list X) :
  flat_map f (map g l) = flat_map (fun x => f (g x)) l.
Proof. induction l as [|x l IH]; simpl; [done|]. by rewrite IH. Qed.

(** Reading [count] positions of a list from position [from] on. *)
Lemma flat_map_lookup_seq data (shift from count : nat) :
  flat_map (fun i => option_list (data !! (i + shift)%nat)) (seq from count)
  = take count (drop (from + shift) data).
Proof.
  revert from. induction count as [|count IH]; intros from.
  - by rewrite take_0.
  - cbn [seq flat_map]. rewrite IH.
    destruct (data !! (from + shift)%nat) as [x|] eqn:Hx.
    + by rewrite (drop_S _ _ _ Hx).
    + apply lookup_ge_None in Hx.
      rewrite !drop_ge by (simpl; lia). by rewrite !take_nil.
Qed.

(** Round [k] of the chunks of a list is its [k]-th run of [m] elements. *)
Lemma column_chunk_list data (m k : nat) :
  (1 <= m)%nat ->
  column k (map (fun i => Py.slice_step data i m) (seq 0 m))
  = take m (drop (k * m) data).
Proof.
  intros Hm. unfold column. rewrite flat_map_map.
  rewrite (flat_map_ext _
             (fun i => option_list (data !! (i + k * m)%nat))).
  - apply (flat_map_lookup_seq data (k * m) 0 m).
  - intros i. by rewrite slice_step_lookup.
Qed.

(** The runs of [m] elements of a list, put one after the other. *)
Lemma runs_concat data (m rounds : nat) :
  (length data <= rounds * m)%nat ->
  flat_map (fun k => take m (drop (k * m) data)) (seq 0 rounds) = data.
Proof.
  revert data. induction rounds as [|rounds IH]; intros data Hlen.
  - destruct data; [done | simpl in Hlen; lia].
  - cbn [seq flat_map]. rewrite <- seq_shift, flat_map_map.
    rewrite (flat_map_ext _
               (fun k => take m (drop (k * m) (drop m data)))).
    + rewrite IH; [apply take_drop|].
      rewrite length_drop. lia.
    + intros k. rewrite drop_drop. f_equal; f_equal; lia.
Qed.

(** Interleaving the chunks gives the list back. *)
Lemma interleave_chunk_list data n :
  (1 <= n)%Z -> interleave (chunk_list data n) = data.
Proof.
  intros Hn. unfold interleave.
  set (rounds := max_list (map length (chunk_list data n))).
  assert (Hrounds : (length data <= rounds * Z.to_nat n)%nat).
  { assert (Hc0 : (length (Py.slice_step data 0 (Z.to_nat n)) <= rounds)%nat).
    { apply max_list_elem_of_le, list_elem_of_fmap.
      exists (Py.slice_step data 0 (Z.to_nat n)). split; [done|].
      apply list_elem_of_lookup. exists 0%nat.
      apply chunk_list_lookup. lia. }
    rewrite slice_step_length in Hc0 by lia.
    assert (Hdm := Nat.div_mod_eq (length data) (Z.to_nat n)).
    assert (Hub := Nat.mod_upper_bound (length data) (Z.to_nat n)
                     ltac:(lia)).
    generalize dependent (length data mod Z.to_nat n)%nat. intros r.
    generalize dependent (length data / Z.to_nat n)%nat. intros q.
    destruct (Nat.ltb_spec 0 r); intros; nia. }
  unfold chunk_list, Py.range.
  rewrite (flat_map_ext _
             (fun k => take (Z.to_nat n) (drop (k * Z.to_nat n) data))).
  - by apply runs_concat.
  - intros k. apply column_chunk_list. lia.
Qed.
End Chunking.

(** ** The composite cache key *)

Lemma filter_perm {A} (f : A -> bool) (l1 l2 : list A) :
  l1 ≡ₚ l2 -> List.filter f l1 ≡ₚ List.filter f l2.
Proof.
  induction 1 as [|x l1 l2 _ IH|x y l|l1 l2 l3 _ IH1 _ IH2]; simpl.
  - done.
  - destruct (f x); [by constructor | done].
  - destruct (f x), (f y); try done. apply perm_swap.
  - by etrans.
Qed.

(** Sorting forgets the order of its input. *)
Lemma sorted_perm (keys1 keys2 : list string) :
  keys1 ≡ₚ keys2 -> Py.sorted keys1 = Py.sorted keys2.
Proof.
  intros Hp. unfold Py.sorted.
  apply (Sorted_unique String.le).
  - apply Sorted_merge_sort, _.
  - apply Sorted_merge_sort, _.
  - by rewrite !merge_sort_Permutation.
Qed.

Lemma sorted_nil_iff (keys : list string) : Py.sorted keys = [] <-> keys = [].
Proof.
  split; [|by intros ->].
  intros Hs. apply Permutation_nil_r.
  rewrite <- Hs. unfold Py.sorted. by rewrite merge_sort_Permutation.
Qed.

Lemma filter_map_key (elements : list element) :
  map e_key (List.filter (fun e => Py.truthy (e_key e)) elements)
  = nonempty_keys elements.
Proof.
  unfold nonempty_keys.
  induction elements as [|e l IH]; simpl; [done|].
  destruct (Py.truthy (e_key e)); simpl; by rewrite IH.
Qed.

(** The composite key is a function of the sorted non-empty keys. *)
Lemma compute_cache_key_unfold (elements : list element) :
  compute_cache_key elements
  = match Py.sorted (nonempty_keys elements) with
    | [] => ""
    | keys => Sha256.hexdigest (Py.encode (Py.join newline keys))
    end.
Proof.
  unfold compute_cache_key. rewrite filter_map_key.
  by destruct (Py.sorted (nonempty_keys elements)).
Qed.

Lemma compute_cache_key_perm (l1 l2 : list element) :
  nonempty_keys l1 ≡ₚ nonempty_keys l2 ->
  compute_cache_key l1 = compute_cache_key l2.
Proof.
  intros Hp. rewrite !compute_cache_key_unfold.
  by rewrite (sorted_perm _ _ Hp).
Qed.

Lemma nonempty_keys_nil_iff (elements : list element) :
  nonempty_keys elements = [] <-> Forall (fun e => e_key e = "") elements.
Proof.
  unfold nonempty_keys.
  induction elements as [|e l IH]; simpl.
  - split; [constructor | done].
  - rewrite Forall_cons. destruct (e_key e) as [|c k]; simpl.
    + rewrite IH. tauto.
    + split; [done|]. by intros [? _].
Qed.

(** The composite key is empty exactly when no element has a key. *)
Lemma compute_cache_key_empty_iff (elements : list element) :
  compute_cache_key elements = ""
  <-> Forall (fun e => e_key e = "") elements.
Proof.
  rewrite compute_cache_key_unfold, <- nonempty_keys_nil_iff, <- sorted_nil_iff.
  destruct (Py.sorted (nonempty_keys elements)); [done|].
  split; [|done]. intros Hd.
  pose proof (hexdigest_length
                (Py.encode (Py.join newline (s :: l)))) as Hlen.
  rewrite Hd in Hlen. discriminate.
Qed.

Lemma truthy_false_iff (s : string) : Py.truthy s = false <-> s = "".
Proof. by destruct s. Qed.

Lemma truthy_true_iff (s : string) : Py.truthy s = true <-> s <> "".
Proof. by destruct s. Qed.

Lemma cache_entry_Some (chunk : list element) (key : string) :
  cache_entry chunk = Some key
  <-> key = compute_cache_key chunk /\ key <> "".
Proof.
  unfold cache_entry.
  destruct (Py.truthy (compute_cache_key chunk)) eqn:Ht.
  - apply truthy_true_iff in Ht. split.
    + by intros [= <-].
    + by intros [-> _].
  - apply truthy_false_iff in Ht. split; [done|].
    intros [-> Hne]. by destruct Hne.
Qed.

Lemma cache_entry_None (chunk : list element) :
  cache_entry chunk = None <-> compute_cache_key chunk = "".
Proof.
  unfold cache_entry.
  destruct (Py.truthy (compute_cache_key chunk)) eqn:Ht.
  - apply truthy_true_iff in Ht. naive_solver.
  - apply truthy_false_iff in Ht. naive_solver.
Qed.

(** ** Chunk names *)

Lemma string_of_uint_digits (d : Decimal.uint) :
  all_digits (NilEmpty.string_of_uint d) = true.
Proof. induction d; simpl; done. Qed.

Lemma str_of_int_digits (i : Z) :
  (0 <= i)%Z -> all_digits (Py.str_of_int i) = true.
Proof.
  intros Hi. unfold Py.str_of_int.
  destruct i as [|p|p]; [done | apply string_of_uint_digits | lia].
Qed.

Lemma str_of_int_inj (i j : Z) : Py.str_of_int i = Py.str_of_int j -> i = j.
Proof.
  unfold Py.str_of_int. intros Heq.
  apply DecimalZ.to_int_inj.
  pose proof (NilEmpty.isi (Z.to_int i)) as Hi.
  pose proof (NilEmpty.isi (Z.to_int j)) as Hj.
  rewrite Heq in Hi. congruence.
Qed.

(** Two numbers followed by a dash: the numbers are read off unambiguously. *)
Lemma digits_dash_inj (s1 s2 t1 t2 : string) :
  all_digits s1 = true -> all_digits s2 = true ->
  s1 +:+ String "-" t1 = s2 +:+ String "-" t2 -> s1 = s2.
Proof.
  revert s2. induction s1 as [|c s1 IH]; intros [|c2 s2] H1 H2 Heq;
    simpl in *.
  - done.
  - simplify_eq/=.
  - simplify_eq/=.
  - injection Heq as -> Heq. f_equal.
    destruct (Ascii.is_nat c2); [|done]. by apply (IH s2).
Qed.

(** The name of a chunk that is not empty tells its index. *)
Lemma make_chunk_name_inj (i j : Z) (c1 c2 : list element) :
  (0 <= i)%Z -> (0 <= j)%Z -> c1 <> [] -> c2 <> [] ->
  make_chunk_name i c1 = make_chunk_name j c2 -> i = j.
Proof.
  intros Hi Hj Hc1 Hc2. destruct c1 as [|e1 c1], c2 as [|e2 c2]; try done.
  unfold make_chunk_name. intros Heq.
  apply (inj (String.app "chunk")) in Heq.
  apply str_of_int_inj.
  eapply digits_dash_inj; [by apply str_of_int_digits..|exact Heq].
Qed.

(** ** The loop that builds the matrix *)

Lemma enumerate_snoc {A} (l : list A) (x : A) :
  Py.enumerate (l ++ [x]) = Py.enumerate l ++ [(Z.of_nat (length l), x)].
Proof.
  unfold Py.enumerate. rewrite imap_app. simpl.
  by rewrite Nat.add_0_r.
Qed.

Lemma build_matrix_snoc (chunks : list (list element)) (c : list element) :
  build_matrix (chunks ++ [c])
  = matrix_step (build_matrix chunks) (Z.of_nat (length chunks), c).
Proof.
  unfold build_matrix. by rewrite enumerate_snoc, fold_left_app.
Qed.

Lemma named_chunks_snoc (chunks : list (list element)) (c : list element) :
  named_chunks (chunks ++ [c])
  = named_chunks chunks
    ++ match c with
       | [] => []
       | _ :: _ => [(make_chunk_name (Z.of_nat (length chunks)) c, c)]
       end.
Proof.
  unfold named_chunks. rewrite enumerate_snoc, flat_map_app. simpl.
  by destruct c.
Qed.

Lemma emitted_snoc (chunks : list (list element)) (c : list element) :
  emitted (chunks ++ [c])
  = emitted chunks ++ match c with [] => [] | _ :: _ => [c] end.
Proof. unfold emitted. rewrite List.filter_app. simpl. by destruct c. Qed.

(** The named chunks are the chunks that are not empty, each under the name
    made from its index. *)
Lemma elem_of_named_chunks (chunks : list (list element)) name c :
  (name, c) ∈ named_chunks chunks
  <-> exists i : nat,
        chunks !! i = Some c /\ c <> []
        /\ name = make_chunk_name (Z.of_nat i) c.
Proof.
  induction chunks as [|c0 chunks IH] using rev_ind.
  - split; [by intros ?%elem_of_nil | by intros (i & ? & _)].
  - rewrite named_chunks_snoc, elem_of_app, IH. split.
    + intros [(i & Hi & Hne & ->)|Hin].
      * exists i. by rewrite lookup_app_l by (by eapply lookup_lt_Some).
      * destruct c0 as [|e c0]; [by apply elem_of_nil in Hin|].
        apply list_elem_of_singleton in Hin. simplify_eq.
        exists (length chunks). by rewrite list_lookup_middle.
    + intros (i & Hi & Hne & ->).
      apply lookup_snoc_Some in Hi as [[Hlt Hi]|[-> ->]].
      * left. by exists i.
      * right. destruct c as [|e c]; [done|]. by apply list_elem_of_singleton.
Qed.

Lemma named_chunks_snd (chunks : list (list element)) :
  (named_chunks chunks).*2 = emitted chunks.
Proof.
  induction chunks as [|c chunks IH] using rev_ind; [done|].
  rewrite named_chunks_snoc, emitted_snoc, fmap_app, IH. by destruct c.
Qed.

(** No two chunks of one run have the same name. *)
Lemma named_chunks_NoDup (chunks : list (list element)) :
  NoDup (named_chunks chunks).*1.
Proof.
  induction chunks as [|c chunks IH] using rev_ind; [constructor|].
  rewrite named_chunks_snoc. destruct c as [|e c].
  - by rewrite app_nil_r.
  - rewrite fmap_app. apply NoDup_app. split; [done|]. split.
    + intros name [[name' c'] [-> Hin]]%list_elem_of_fmap Hlast.
      apply list_elem_of_singleton in Hlast. cbn [fst] in Hlast.
      apply elem_of_named_chunks in Hin as (i & Hi & Hne & Hname).
      apply lookup_lt_Some in Hi. rewrite Hname in Hlast.
      apply make_chunk_name_inj in Hlast; [lia | lia | lia | done | done].
    + apply NoDup_singleton.
Qed.

Lemma chunk_map_lookup (chunks : list (list element)) name c :
  chunk_map chunks !! name = Some c
  <-> exists i : nat,
        chunks !! i = Some c /\ c <> []
        /\ name = make_chunk_name (Z.of_nat i) c.
Proof.
  unfold chunk_map.
  rewrite <- elem_of_list_to_map by apply named_chunks_NoDup.
  apply elem_of_named_chunks.
Qed.

Lemma chunk_map_snoc (chunks : list (list element)) (c : list element) :
  c <> [] ->
  chunk_map (chunks ++ [c])
  = <[make_chunk_name (Z.of_nat (length chunks)) c := c]> (chunk_map chunks)
  /\ chunk_map chunks !! make_chunk_name (Z.of_nat (length chunks)) c = None.
Proof.
  intros Hne. unfold chunk_map.
  pose proof (named_chunks_NoDup (chunks ++ [c])) as Hnd.
  rewrite named_chunks_snoc in *. destruct c as [|e c]; [done|].
  rewrite fmap_app in Hnd. apply NoDup_app in Hnd as (_ & Hfresh & _).
  assert (make_chunk_name (Z.of_nat (length chunks)) (e :: c)
          ∉ (named_chunks chunks).*1).
  { intros Hin. apply (Hfresh _ Hin). by apply list_elem_of_singleton. }
  split; [by apply list_to_map_snoc | by apply not_elem_of_list_to_map_1].
Qed.

(** What the loop leaves: the matrix gives the targets of every named chunk,
    the cache keys give its composite key unless that is empty, and the two
    helpers were called once per named chunk. *)
Lemma build_matrix_spec (chunks : list (list element)) :
  ms_matrix (build_matrix chunks) = targets <$> chunk_map chunks
  /\ ms_cache_keys (build_matrix chunks) = omap cache_entry (chunk_map chunks)
  /\ ms_calls (build_matrix chunks)
     = flat_map (fun _ => [Call_make_chunk_name; Call_compute_cache_key])
                (emitted chunks).
Proof.
  induction chunks as [|c chunks (IHm & IHk & IHc)] using rev_ind.
  - unfold chunk_map. simpl. by rewrite fmap_empty, omap_empty.
  - rewrite build_matrix_snoc, emitted_snoc, flat_map_app.
    destruct c as [|e c].
    + unfold chunk_map. rewrite named_chunks_snoc, !app_nil_r. done.
    + destruct (chunk_map_snoc chunks (e :: c)) as [-> Hfresh]; [done|].
      cbn [matrix_step ms_matrix ms_cache_keys ms_calls].
      rewrite fmap_insert, omap_insert, IHm, IHk, IHc.
      split; [done|]. split; [|done].
      unfold cache_entry.
      destruct (Py.truthy (compute_cache_key (e :: c))); [done|].
      rewrite delete_id; [done|]. by rewrite lookup_omap, Hfresh.
Qed.

Lemma chunk_map_size (chunks : list (list element)) :
  size (chunk_map chunks) = length (emitted chunks).
Proof.
  unfold chunk_map.
  rewrite map_size_list_to_map by apply named_chunks_NoDup.
  by rewrite <- named_chunks_snd, length_fmap.
Qed.

(** ** [main] in terms of its parts *)

Lemma split_leaves_nil (num_chunks : Z) : split_leaves [] num_chunks = ([], []).
Proof. reflexivity. Qed.

Lemma chunks_of_nil (core_split num_chunks : Z) :
  chunks_of [] core_split num_chunks = [].
Proof.
  unfold chunks_of, leaf_elements, Py.slice_from.
  destruct (core_split <? 0)%Z; by rewrite skipn_nil.
Qed.

Lemma main_body_out (target : string) (num_chunks core_split : Z)
    (elements : list element) :
  let st := build_matrix (chunks_of elements core_split num_chunks) in
  out (main_body target num_chunks core_split elements)
  = Result (targets (core_elements elements core_split))
           (ms_matrix st) (ms_cache_keys st) target.
Proof.
  destruct elements as [|e l].
  - simpl. rewrite chunks_of_nil. unfold core_elements, Py.slice_to.
    destruct (core_split <? 0)%Z; by rewrite firstn_nil.
  - unfold main_body, chunks_of.
    by destruct (split_leaves _ _).
Qed.

Lemma core_leaf_app (elements : list element) (core_split : Z) :
  core_elements elements core_split ++ leaf_elements elements core_split
  = elements.
Proof. apply slice_to_from. Qed.

(** Every chunk [main] makes has a member. *)
Lemma split_leaves_nonempty (leaf : list element) (num_chunks : Z) c :
  c ∈ fst (split_leaves leaf num_chunks) -> c <> [].
Proof.
  unfold split_leaves. destruct leaf as [|e leaf]; [by intros ?%elem_of_nil|].
  destruct (0 <? num_chunks)%Z; [|by intros ?%elem_of_nil].
  apply chunk_list_nonempty. lia.
Qed.

Lemma emitted_all (chunks : list (list element)) :
  (forall c, c ∈ chunks -> c <> []) -> emitted chunks = chunks.
Proof.
  intros Hall. unfold emitted.
  induction chunks as [|c chunks IH]; [done|]. simpl.
  destruct c as [|e c].
  - exfalso. by apply (Hall []); [left|].
  - f_equal. apply IH. intros c' Hc'. apply Hall. by right.
Qed.

(** ** Parsing the plan *)

Lemma lstrip_cases (s : string) :
  Py.lstrip s = ""
  \/ exists c r, Py.lstrip s = String c r /\ Py.is_space c = false.
Proof.
  induction s as [|c r IH]; simpl; [by left|].
  destruct (Py.is_space c) eqn:Hc; [done|]. right. by exists c, r.
Qed.

Lemma rstrip_keeps (c : ascii) (r : string) :
  Py.is_space c = false -> Py.rstrip (String c r) <> "".
Proof. intros Hc. simpl. rewrite Hc. by destruct (Py.rstrip r). Qed.

Lemma strip_empty (s : string) : Py.strip s = "" -> Py.lstrip s = "".
Proof.
  unfold Py.strip. intros Hs.
  destruct (lstrip_cases s) as [Hl|(c & r & Hl & Hc)]; [done|].
  rewrite Hl in Hs. by apply rstrip_keeps in Hs.
Qed.

Lemma prefix_sep_space (c : ascii) (r : string) :
  Py.is_space c = true -> String.prefix "||" (String c r) = false.
Proof.
  intros Hc. cbn [String.prefix].
  destruct (ascii_dec "|" c) as [<-|]; [|done].
  vm_compute in Hc. discriminate.
Qed.

(** A line of white space has no separator, hence one field. *)
Lemma blank_one_field (s : string) :
  Py.lstrip s = "" -> length (Py.split_go "||" 0 s) = 1%nat.
Proof.
  induction s as [|c r IH]; [done|]. cbn [Py.lstrip].
  destruct (Py.is_space c) eqn:Hc; [|done]. intros Hr.
  specialize (IH Hr). cbn [Py.split_go].
  rewrite (prefix_sep_space c r Hc).
  by destruct (Py.split_go "||" 0 r) as [|h [|? ?]].
Qed.

Lemma blank_not_well_formed (line : string) :
  Py.truthy (Py.strip line) = false -> well_formed line = false.
Proof.
  intros Hb%truthy_false_iff%strip_empty.
  unfold well_formed, fields, Py.split.
  by rewrite (blank_one_field line Hb).
Qed.

Lemma retained_one (line : string) :
  retained [line]
  = if well_formed line
    then if negb (String.eqb (e_state (element_of_line line)) "cached")
         then [element_of_line line]
         else []
    else [].
Proof. unfold retained. cbn [List.filter]. by destruct (well_formed line). Qed.

(** The body of the [try] never raises: a line adds its element when it is
    well formed and not cached, and nothing otherwise. *)
Lemma parse_line_spec (line : string) (elements : list element) :
  parse_line line elements = Return (elements ++ retained [line]).
Proof.
  rewrite retained_one.
  unfold parse_line, well_formed, element_of_line, fields.
  generalize (Py.split "||" line). intros parts.
  destruct parts as [|p0 [|p1 [|p2 rest]]]; cbn -[Py.strip String.eqb].
  - by rewrite app_nil_r.
  - by rewrite app_nil_r.
  - destruct (String.eqb (Py.strip p1) "cached"); cbn [negb];
      by rewrite ?app_nil_r.
  - destruct (String.eqb (Py.strip p1) "cached"); cbn [negb];
      by rewrite ?app_nil_r.
Qed.

Lemma retained_cons (line : string) (lines : list string) :
  retained (line :: lines) = retained [line] ++ retained lines.
Proof.
  unfold retained.
  by rewrite <- List.filter_app, <- map_app, <- List.filter_app.
Qed.

Lemma plan_loop_spec (lines : list string) (elements : list element)
    (stderr : list string) :
  plan_loop lines elements stderr
  = (Return (elements ++ retained lines), stderr).
Proof.
  revert elements. induction lines as [|line lines IH]; intros elements.
  - simpl. by rewrite app_nil_r.
  - cbn [plan_loop]. rewrite retained_cons.
    destruct (Py.truthy (Py.strip line)) eqn:Hb; cbn [negb].
    + by rewrite parse_line_spec, IH, app_assoc.
    + rewrite IH. unfold retained at 2. cbn [List.filter].
      by rewrite (blank_not_well_formed line Hb).
Qed.

(** ** The label of a chunk name *)

Lemma occurs_slash_cons (c : ascii) (r : string) :
  occurs "/" (String c r) = Ascii.eqb c "/" || occurs "/" r.
Proof.
  cbn [occurs String.prefix].
  destruct (ascii_dec "/" c) as [<-|Hne].
  - rewrite Ascii.eqb_refl. by destruct r.
  - destruct (Ascii.eqb_spec c "/"); [by subst|done].
Qed.

Lemma rsplit1_go_spec (s : string) :
  match Py.rsplit1_go "/" s with
  | Some (_, t) => occurs "/" s = true /\ last_segment s = t
  | None => occurs "/" s = false /\ last_segment s = s
  end.
Proof.
  induction s as [|c r IH]; [done|].
  cbn [Py.rsplit1_go last_segment]. rewrite occurs_slash_cons.
  destruct (Py.rsplit1_go "/" r) as [[h t]|].
  - destruct IH as [-> <-]. by rewrite orb_true_r.
  - destruct IH as [-> Hl]. rewrite orb_false_r.
    by destruct (Ascii.eqb c "/").
Qed.

(** [rsplit("/", 1)[-1]] is the last path segment. *)
Lemma last_part_rsplit1 (s : string) :
  Py.last_part (Py.rsplit1 "/" s) = last_segment s.
Proof.
  unfold Py.rsplit1. pose proof (rsplit1_go_spec s) as H.
  destruct (Py.rsplit1_go "/" s) as [[h t]|]; simpl; by destruct H.
Qed.

Lemma prefix_cons_inv (a : ascii) (p s : string) :
  String.prefix (String a p) s = true ->
  exists r, s = String a r /\ String.prefix p r = true.
Proof.
  destruct s as [|c r]; cbn [String.prefix]; [done|].
  destruct (ascii_dec a c) as [<-|]; [|done]. intros Hp. by exists r.
Qed.

Lemma prefix_bst_inv (s : string) :
  String.prefix ".bst" s = true -> exists r, s = ".bst" +:+ r.
Proof.
  intros (r0 & -> & H0)%prefix_cons_inv.
  apply prefix_cons_inv in H0 as (r1 & -> & H1).
  apply prefix_cons_inv in H1 as (r2 & -> & H2).
  apply prefix_cons_inv in H2 as (r3 & -> & _).
  by exists r3.
Qed.

Lemma prefix_app (p r : string) : String.prefix p (p +:+ r) = true.
Proof.
  induction p as [|a p IH]; [by destruct r|].
  change (String a p +:+ r) with (String a (p +:+ r)).
  cbn [String.prefix]. by destruct (ascii_dec a a).
Qed.

(** Where the extension occurs as the suffix only, removing every occurrence
    of it strips the suffix. *)
Lemma replace_strip_suffix (s : string) :
  occurs ".bst" (strip_suffix ".bst" s) = false ->
  Py.replace ".bst" "" s = strip_suffix ".bst" s.
Proof.
  unfold Py.replace. induction s as [|c r IH]; [done|].
  cbn [strip_suffix]. destruct (String.eqb_spec (String c r) ".bst") as [->|Hne].
  - done.
  - cbn [occurs]. intros [Hp Ho]%orb_false_elim.
    cbn [Py.replace_go].
    destruct (String.prefix ".bst" (String c r)) eqn:Hpre.
    + exfalso. apply prefix_bst_inv in Hpre as [r3 Hr3].
      injection Hr3 as -> ->.
      destruct r3 as [|c3 r3]; [done|].
      change (String "." (strip_suffix ".bst" ("bst" +:+ String c3 r3)))
        with (".bst" +:+ strip_suffix ".bst" (String c3 r3)) in Hp.
      by rewrite prefix_app in Hp.
    + f_equal. by apply IH.
Qed.

(** ** The sizes of the chunks, as integers *)

Lemma chunk_size_floor_ceil (L m i : nat) :
  (i < m)%nat ->
  let size := (L / m + (if (i <? L mod m)%nat then 1 else 0))%nat in
  (Z.of_nat size = Z.of_nat L / Z.of_nat m
   \/ Z.of_nat size = (Z.of_nat L + Z.of_nat m - 1) / Z.of_nat m)%Z.
Proof.
  intros Hi size. unfold size. clear size.
  assert (Hdm := Nat.div_mod_eq L m).
  assert (Hub := Nat.mod_upper_bound L m ltac:(lia)).
  assert (Hq : (Z.of_nat L / Z.of_nat m = Z.of_nat (L / m))%Z).
  { symmetry. apply Z.div_unique_pos with (r := Z.of_nat (L mod m)); nia. }
  destruct (Nat.ltb_spec i (L mod m)) as [Hlt|Hge].
  - right. apply Z.div_unique_pos with (r := (Z.of_nat (L mod m) - 1)%Z); nia.
  - left. rewrite Hq. lia.
Qed.

(** * The claims *)

(** C1, as stated, fails: with a chunk count of 0 the leaf elements are in
    no chunk.  Two elements, a core of one and no chunks: the second element
    is neither in the core nor in a chunk, and the matrix is empty. *)
Lemma partition_incomplete_without_chunks :
  let elements := [Element "a" "waiting" "k1"; Element "b" "waiting" "k2"] in
  (0 <= 1)%Z /\ (0 <= 0)%Z
  /\ r_matrix (out (main_body "t" 0 1 elements)) = ∅
  /\ ~ (core_elements elements 1 ++ concat (emitted (chunks_of elements 1 0))
        ≡ₚ elements).
Proof.
  cbn zeta. split; [lia|]. split; [lia|]. split; [reflexivity|].
  intros Hp. apply Permutation_length in Hp. discriminate Hp.
Qed.

(** C1, amended: for every filtered sequence, every core split of at least 0
    and every chunk count of at least 1 (or whenever the leaf group is empty),
    the core group and the emitted chunks together hold every filtered
    element exactly once; the core string lists the core group, and the
    matrix has one entry per emitted chunk, under a name of its own. *)
Theorem partition_complete (target : string) (num_chunks core_split : Z)
    (elements : list element) :
  (0 <= core_split)%Z ->
  (1 <= num_chunks)%Z \/ leaf_elements elements core_split = [] ->
  let chunks := chunks_of elements core_split num_chunks in
  let r := out (main_body target num_chunks core_split elements) in
  core_elements elements core_split ++ concat (emitted chunks) ≡ₚ elements
  /\ r_core r = targets (core_elements elements core_split)
  /\ r_matrix r = targets <$> chunk_map chunks
  /\ (named_chunks chunks).*2 = emitted chunks
  /\ NoDup (named_chunks chunks).*1.
Proof.
  intros _ Hn chunks r.
  assert (Hout := main_body_out target num_chunks core_split elements).
  cbn zeta in Hout. fold chunks r in Hout.
  destruct (build_matrix_spec chunks) as (Hm & _ & _).
  split; [|rewrite Hout; cbn [r_core r_matrix]; split; [done|];
           split; [done|]; split;
           [apply named_chunks_snd | apply named_chunks_NoDup]].
  rewrite emitted_all by (intros c; apply split_leaves_nonempty).
  rewrite <- (core_leaf_app elements core_split) at 2.
  apply Permutation_app_head.
  unfold chunks, chunks_of, split_leaves.
  destruct (leaf_elements elements core_split) as [|e leaf] eqn:Hleaf; [done|].
  destruct Hn as [Hn|?]; [|done].
  destruct (Z.ltb_spec 0 num_chunks); [|lia]. cbn [fst].
  apply chunk_list_concat_perm. simpl length. lia.
Qed.

Lemma partition_complete_witness :
  let elements := [Element "a" "waiting" "k1"; Element "c" "waiting" "k3";
                   Element "d" "waiting" ""] in
  let chunks := chunks_of elements 1 2 in
  core_elements elements 1 ++ concat (emitted chunks) ≡ₚ elements
  /\ r_core (out (main_body "t" 2 1 elements))
     = targets (core_elements elements 1)
  /\ r_matrix (out (main_body "t" 2 1 elements)) = targets <$> chunk_map chunks
  /\ (named_chunks chunks).*2 = emitted chunks
  /\ NoDup (named_chunks chunks).*1.
Proof.
  apply (partition_complete "t" 2 1); [lia | left; lia].
Defined.

(** C2: for a leaf group of size L and a chunk count N with 1 <= N <= L,
    [main] makes the chunks of [chunk_list]; there are N of them; each has
    floor(L/N) or ceil(L/N) elements; chunk i holds at position k the leaf
    element of index i + k*N, hence the elements of the indices i, i+N,
    i+2N, ... in their order; and interleaving the chunks gives the leaf
    group back. *)
Theorem round_robin_coverage (leaf : list element) (N : Z) :
  (1 <= N <= Z.of_nat (length leaf))%Z ->
  let chunks := chunk_list leaf N in
  fst (split_leaves leaf N) = chunks
  /\ length chunks = Z.to_nat N
  /\ (forall (i : nat) (c : list element),
        chunks !! i = Some c ->
        (Z.of_nat (length c) = Z.of_nat (length leaf) / N
         \/ Z.of_nat (length c) = (Z.of_nat (length leaf) + N - 1) / N)%Z
        /\ forall k : nat, c !! k = leaf !! (i + k * Z.to_nat N)%nat)
  /\ interleave chunks = leaf.
Proof.
  intros [HN HL] chunks. split; [|split; [|split]].
  - unfold split_leaves. destruct leaf as [|e leaf]; [simpl in HL; lia|].
    destruct (Z.ltb_spec 0 N); [|lia]. cbn [fst].
    unfold chunks. f_equal. lia.
  - apply chunk_list_length.
  - intros i c Hc. apply chunk_list_lookup_inv in Hc as [Hi ->]. split.
    + rewrite slice_step_length by done.
      pose proof (chunk_size_floor_ceil (length leaf) (Z.to_nat N) i Hi)
        as Hsize.
      cbn zeta in Hsize. by rewrite Z2Nat.id in Hsize by lia.
    + intros k. apply slice_step_lookup. lia.
  - apply interleave_chunk_list. lia.
Qed.

Lemma round_robin_coverage_witness :
  let leaf := [Element "a" "" "1"; Element "b" "" "2"; Element "c" "" "3";
               Element "d" "" "4"; Element "e" "" "5"] in
  let chunks := chunk_list leaf 2 in
  fst (split_leaves leaf 2) = chunks
  /\ length chunks = Z.to_nat 2
  /\ (forall (i : nat) (c : list element),
        chunks !! i = Some c ->
        (Z.of_nat (length c) = Z.of_nat (length leaf) / 2
         \/ Z.of_nat (length c) = (Z.of_nat (length leaf) + 2 - 1) / 2)%Z
        /\ forall k : nat, c !! k = leaf !! (i + k * Z.to_nat 2)%nat)
  /\ interleave chunks = leaf.
Proof.
  apply (round_robin_coverage _ 2). simpl. lia.
Defined.

(** C3, as stated, fails: the keys are sorted, not made unique.  A list with
    the key k1 once and a list with it twice have the same set of non-empty
    keys and different composite keys. *)
Lemma cache_key_not_set_invariant :
  let l1 := [Element "a" "waiting" "k1"] in
  let l2 := [Element "a" "waiting" "k1"; Element "b" "waiting" "k1"] in
  (forall k, k ∈ nonempty_keys l1 <-> k ∈ nonempty_keys l2)
  /\ compute_cache_key l1 <> compute_cache_key l2.
Proof.
  cbn zeta. split.
  - intros k. cbn. rewrite !elem_of_cons, elem_of_nil. tauto.
  - vm_compute. discriminate.
Qed.

(** C3, amended: two element lists whose non-empty keys are the same
    multiset (the same keys, each as many times), however the elements are
    grouped or ordered, have the same composite cache key. *)
Theorem cache_key_multiset_invariant (l1 l2 : list element) :
  nonempty_keys l1 ≡ₚ nonempty_keys l2 ->
  compute_cache_key l1 = compute_cache_key l2.
Proof. apply compute_cache_key_perm. Qed.

Lemma cache_key_multiset_invariant_witness :
  compute_cache_key [Element "a" "waiting" "k1"; Element "b" "waiting" "";
                     Element "c" "waiting" "k3"]
  = compute_cache_key [Element "c" "waiting" "k3"; Element "a" "waiting" "k1"].
Proof.
  apply cache_key_multiset_invariant. cbn. apply perm_swap.
Defined.

(** For lists that repeat no key, the same set of non-empty keys is enough. *)
Lemma cache_key_set_invariant_nodup (l1 l2 : list element) :
  NoDup (nonempty_keys l1) -> NoDup (nonempty_keys l2) ->
  (forall k, k ∈ nonempty_keys l1 <-> k ∈ nonempty_keys l2) ->
  compute_cache_key l1 = compute_cache_key l2.
Proof.
  intros H1 H2 Heq. apply compute_cache_key_perm.
  by apply NoDup_Permutation.
Qed.

(** C4, as stated, fails: [replace] removes the extension wherever it occurs,
    not only at the end.  For the name x.bsty the label is xy, where
    stripping the suffix leaves x.bsty. *)
Lemma chunk_name_extension_inside :
  make_chunk_name 0 [Element "x.bsty" "waiting" "k"] = "chunk0-xy"
  /\ spec_chunk_name 0 [Element "x.bsty" "waiting" "k"] = "chunk0-x.bsty"
  /\ make_chunk_name 0 [Element "x.bsty" "waiting" "k"]
     <> spec_chunk_name 0 [Element "x.bsty" "waiting" "k"].
Proof. split; [reflexivity|]. split; [reflexivity|]. discriminate. Qed.

(** C4, amended: for every index and every non-empty element list the name
    is "chunk<index>-<label>", the label being the last path segment of the
    first element's name with every occurrence of ".bst" removed; when
    ".bst" occurs in that segment as its suffix only (or not at all), this is
    the segment with the suffix stripped; for the empty list the name is
    "chunk<index>"; and the first name "libs/foo.bst" at index 2 gives
    "chunk2-foo". *)
Theorem make_chunk_name_label (index : Z) (e : element)
    (rest : list element) :
  make_chunk_name index (e :: rest)
  = "chunk" +:+ Py.str_of_int index +:+ "-"
    +:+ Py.replace ".bst" "" (last_segment (e_name e))
  /\ (occurs ".bst" (strip_suffix ".bst" (last_segment (e_name e))) = false ->
      make_chunk_name index (e :: rest) = spec_chunk_name index (e :: rest))
  /\ make_chunk_name index [] = "chunk" +:+ Py.str_of_int index
  /\ make_chunk_name 2 (Element "libs/foo.bst" (e_state e) (e_key e) :: rest)
     = "chunk2-foo".
Proof.
  unfold make_chunk_name, spec_chunk_name.
  rewrite last_part_rsplit1. split; [done|]. split; [|done].
  intros Hocc. by rewrite replace_strip_suffix.
Qed.

Lemma make_chunk_name_label_witness :
  make_chunk_name 7 [Element "core/deps/glib.bst" "waiting" "k"]
  = "chunk" +:+ Py.str_of_int 7 +:+ "-"
    +:+ Py.replace ".bst" "" (last_segment "core/deps/glib.bst")
  /\ make_chunk_name 7 [Element "core/deps/glib.bst" "waiting" "k"]
     = spec_chunk_name 7 [Element "core/deps/glib.bst" "waiting" "k"]
  /\ make_chunk_name 7 [] = "chunk" +:+ Py.str_of_int 7
  /\ make_chunk_name 2 [Element "libs/foo.bst" "waiting" "k"] = "chunk2-foo".
Proof.
  destruct (make_chunk_name_label 7
              (Element "core/deps/glib.bst" "waiting" "k") [])
    as (H1 & H2 & H3 & H4).
  split; [exact H1|]. split; [apply H2; reflexivity|].
  split; [exact H3 | exact H4].
Defined.

(** C5: the key set of the cache-key mapping is within that of the matrix;
    every chunk [main] makes is not empty and has its name in the matrix,
    with its targets; its name is in the cache-key mapping, with its
    composite key, exactly when that key is not the empty string, that is
    when some element of the chunk has a non-empty key; and the matrix has
    no other names. *)
Theorem matrix_cache_keys_domains (target : string)
    (num_chunks core_split : Z) (elements : list element) :
  let r := out (main_body target num_chunks core_split elements) in
  let chunks := chunks_of elements core_split num_chunks in
  dom (r_cache_keys r) ⊆ dom (r_matrix r)
  /\ (forall (i : nat) (chunk : list element),
        chunks !! i = Some chunk ->
        let name := make_chunk_name (Z.of_nat i) chunk in
        chunk <> []
        /\ name ∈ dom (r_matrix r)
        /\ r_matrix r !! name = Some (targets chunk)
        /\ r_cache_keys r !! name = cache_entry chunk
        /\ (name ∈ dom (r_cache_keys r) <-> compute_cache_key chunk <> "")
        /\ (name ∉ dom (r_cache_keys r) <-> compute_cache_key chunk = "")
        /\ (compute_cache_key chunk = ""
            <-> Forall (fun e => e_key e = "") chunk))
  /\ forall name, name ∈ dom (r_matrix r) ->
       exists (i : nat) (chunk : list element),
         chunks !! i = Some chunk /\ chunk <> []
         /\ name = make_chunk_name (Z.of_nat i) chunk
         /\ r_matrix r !! name = Some (targets chunk)
         /\ r_cache_keys r !! name = cache_entry chunk
         /\ (name ∉ dom (r_cache_keys r) <-> compute_cache_key chunk = "")
         /\ (compute_cache_key chunk = ""
             <-> Forall (fun e => e_key e = "") chunk).
Proof.
  intros r chunks.
  assert (Hout := main_body_out target num_chunks core_split elements).
  cbn zeta in Hout. fold chunks r in Hout.
  destruct (build_matrix_spec chunks) as (Hm & Hk & _).
  rewrite Hout. cbn [r_matrix r_cache_keys]. rewrite Hm, Hk.
  assert (Hentry : forall name chunk,
            chunk_map chunks !! name = Some chunk ->
            (targets <$> chunk_map chunks) !! name = Some (targets chunk)
            /\ omap cache_entry (chunk_map chunks) !! name = cache_entry chunk
            /\ (name ∉ dom (omap cache_entry (chunk_map chunks))
                <-> compute_cache_key chunk = "")).
  { intros name chunk Hc. rewrite lookup_fmap, Hc. split; [done|].
    assert (Hlk : omap cache_entry (chunk_map chunks) !! name
                  = cache_entry chunk) by (by rewrite lookup_omap, Hc).
    split; [done|]. by rewrite not_elem_of_dom, Hlk, cache_entry_None. }
  split; [|split].
  - rewrite dom_fmap_L. apply dom_omap_subseteq.
  - intros i chunk Hi.
    set (name := make_chunk_name (Z.of_nat i) chunk).
    assert (Hne : chunk <> []).
    { apply (split_leaves_nonempty (leaf_elements elements core_split)
               num_chunks).
      by eapply list_elem_of_lookup_2. }
    assert (Hc : chunk_map chunks !! name = Some chunk).
    { apply chunk_map_lookup. by exists i. }
    destruct (Hentry name chunk Hc) as (Hmx & Hck & Hnot).
    split; [done|]. split; [by apply elem_of_dom; eexists|].
    split; [done|]. split; [done|]. split; [|split; [done|]].
    + rewrite <- Hnot. split.
      * intros Hin Hout'. by apply Hout'.
      * intros Hnn. destruct (decide (name ∈ dom (omap cache_entry
                                                 (chunk_map chunks))));
          [done|]. by destruct Hnn.
    + apply compute_cache_key_empty_iff.
  - intros name [v Hv]%elem_of_dom.
    rewrite lookup_fmap in Hv.
    destruct (chunk_map chunks !! name) as [chunk|] eqn:Hc; [|done].
    pose proof Hc as (i & Hi & Hne & Hname)%chunk_map_lookup.
    destruct (Hentry name chunk Hc) as (Hmx & Hck & Hnot).
    exists i, chunk. split; [done|]. split; [done|]. split; [done|].
    split; [done|]. split; [done|]. split; [done|].
    apply compute_cache_key_empty_iff.
Qed.

(** C6: for a core split of at least 0 the core group is the first
    coreSplit elements, in plan order, printed as their names joined by one
    space; the leaf group is the rest; and with fewer elements than the core
    split the whole sequence is core and the leaf group is empty. *)
Theorem core_leaf_split (target : string) (num_chunks core_split : Z)
    (elements : list element) :
  (0 <= core_split)%Z ->
  core_elements elements core_split = take (Z.to_nat core_split) elements
  /\ leaf_elements elements core_split = drop (Z.to_nat core_split) elements
  /\ r_core (out (main_body target num_chunks core_split elements))
     = Py.join " " (map e_name (take (Z.to_nat core_split) elements))
  /\ ((Z.of_nat (length elements) < core_split)%Z ->
      core_elements elements core_split = elements
      /\ leaf_elements elements core_split = []).
Proof.
  intros Hc. unfold core_elements, leaf_elements.
  rewrite main_body_out. cbn [r_core]. unfold targets, core_elements.
  rewrite slice_to_nonneg, slice_from_nonneg by done.
  split; [done|]. split; [done|]. split; [done|].
  intros Hlen. split; [apply take_ge | apply drop_ge]; lia.
Qed.

Lemma core_leaf_split_witness :
  let elements := [Element "a" "waiting" "k1"; Element "c" "waiting" "k3";
                   Element "d" "waiting" ""] in
  core_elements elements 2 = take (Z.to_nat 2) elements
  /\ leaf_elements elements 2 = drop (Z.to_nat 2) elements
  /\ r_core (out (main_body "t" 4 2 elements))
     = Py.join " " (map e_name (take (Z.to_nat 2) elements))
  /\ ((Z.of_nat (length elements) < 2)%Z ->
      core_elements elements 2 = elements /\ leaf_elements elements 2 = []).
Proof.
  apply (core_leaf_split "t" 4 2). lia.
Defined.

(** C7: with a leaf group that is not empty and a chunk count N above 0,
    [main] makes min(N, |leaf group|) chunks; with an empty leaf group or
    N <= 0 it makes none; no chunk is empty, so every chunk made is
    processed: the matrix has as many entries as there are chunks, each the
    targets of a chunk that is not empty. *)
Theorem chunk_count (target : string) (num_chunks core_split : Z)
    (elements : list element) :
  let leaf := leaf_elements elements core_split in
  let chunks := chunks_of elements core_split num_chunks in
  let r := out (main_body target num_chunks core_split elements) in
  (leaf <> [] -> (0 < num_chunks)%Z ->
   Z.of_nat (length chunks) = Z.min num_chunks (Z.of_nat (length leaf)))
  /\ (leaf = [] \/ (num_chunks <= 0)%Z -> chunks = [])
  /\ (forall c, c ∈ chunks -> c <> [])
  /\ emitted chunks = chunks
  /\ size (r_matrix r) = length chunks
  /\ (forall name v,
        r_matrix r !! name = Some v ->
        exists (i : nat) (c : list element),
          chunks !! i = Some c /\ c <> []
          /\ name = make_chunk_name (Z.of_nat i) c /\ v = targets c).
Proof.
  intros leaf chunks r.
  assert (Hne : forall c, c ∈ chunks -> c <> [])
    by (intros c; apply split_leaves_nonempty).
  assert (Hout := main_body_out target num_chunks core_split elements).
  cbn zeta in Hout. fold chunks r in Hout.
  destruct (build_matrix_spec chunks) as (Hm & _ & _).
  split; [|split; [|split; [done|split; [by apply emitted_all|split]]]].
  - intros Hleaf Hn. unfold chunks, chunks_of, split_leaves. fold leaf.
    destruct leaf as [|e leaf']; [done|].
    destruct (Z.ltb_spec 0 num_chunks); [|lia]. cbn [fst].
    rewrite chunk_list_length. simpl length. lia.
  - intros Hz. unfold chunks, chunks_of, split_leaves. fold leaf.
    destruct leaf as [|e leaf']; [done|].
    destruct Hz as [?|Hz]; [done|].
    by destruct (Z.ltb_spec 0 num_chunks); [lia|].
  - rewrite Hout. cbn [r_matrix]. rewrite Hm, map_size_fmap, chunk_map_size.
    by rewrite emitted_all.
  - intros name v. rewrite Hout. cbn [r_matrix]. rewrite Hm, lookup_fmap.
    destruct (chunk_map chunks !! name) as [c|] eqn:Hc; [|done].
    intros [= <-]. apply chunk_map_lookup in Hc as (i & Hi & Hc & Hname).
    by exists i, c.
Qed.

(** C8: when the filter yields no element, the printed object is
    [{core: "", matrix: {}, cache_keys: {}, final: target}] with the target as
    it was given, and no helper was called: neither [chunk_list] nor
    [make_chunk_name] nor [compute_cache_key]. *)
Theorem degenerate_empty_plan (target : string) (num_chunks core_split : Z)
    (bst : outcome (list string)) (stderr : list string) :
  get_build_plan bst = (Return [], stderr) ->
  fst (main target num_chunks core_split bst)
  = Return (Run (Result "" ∅ ∅ target) [])
  /\ main_body target num_chunks core_split []
     = Run (Result "" ∅ ∅ target) [].
Proof.
  intros Hplan. unfold main. by rewrite Hplan.
Qed.

Lemma degenerate_empty_plan_witness :
  fst (main "target.bst" 4 200
         (Return ["a.bst||cached||k1"; "b.bst||cached||k2"]))
  = Return (Run (Result "" ∅ ∅ "target.bst") [])
  /\ main_body "target.bst" 4 200 []
     = Run (Result "" ∅ ∅ "target.bst") [].
Proof.
  apply (degenerate_empty_plan "target.bst" 4 200 _ []). reflexivity.
Defined.

(** C9: the code breaks the claim.  A line with fewer than two fields is
    passed over by [continue] before the handler that prints the notice
    "Skipping malformed line" can be reached: the line "junk" is not blank,
    has one field, is skipped, and leaves stderr empty. *)
Lemma short_line_without_notice :
  Py.truthy (Py.strip "junk") = true
  /\ well_formed "junk" = false
  /\ get_build_plan (Return ["junk"]) = (Return [], []).
Proof. repeat split. Qed.

(** X19: what the filter does with malformed lines.  On every output of
    [bst show] it returns and retains exactly the elements of the
    well-formed lines whose state is not "cached", in their order; the body
    of the [try] raises on no line, so the handler is never entered and
    stderr stays empty; and a malformed line between other lines changes
    nothing of the result. *)
Theorem filter_skips_malformed (lines : list string) :
  get_build_plan (Return lines) = (Return (retained lines), [])
  /\ (forall line elements,
        exists elements', parse_line line elements = Return elements')
  /\ (forall before line after,
        well_formed line = false ->
        get_build_plan (Return (before ++ line :: after))
        = get_build_plan (Return (before ++ after))).
Proof.
  assert (Hplan : forall ls,
            get_build_plan (Return ls) = (Return (retained ls), [])).
  { intros ls. unfold get_build_plan. by rewrite plan_loop_spec. }
  split; [apply Hplan|]. split.
  - intros line elements. rewrite parse_line_spec. by eexists.
  - intros before line after Hwf. rewrite !Hplan. do 2 f_equal.
    unfold retained. rewrite !List.filter_app. cbn [List.filter].
    by rewrite Hwf.
Qed.

(** C10: the composite cache key is a function of the multiset of the key
    fields: two element lists whose key fields are the same up to order have
    the same composite key, whatever their names and states. *)
Theorem cache_key_depends_on_keys_only (l1 l2 : list element) :
  map e_key l1 ≡ₚ map e_key l2 ->
  compute_cache_key l1 = compute_cache_key l2.
Proof.
  intros Hp. apply compute_cache_key_perm. unfold nonempty_keys.
  by apply filter_perm.
Qed.

Lemma cache_key_depends_on_keys_only_witness :
  compute_cache_key [Element "a.bst" "waiting" "k1";
                     Element "b.bst" "buildable" "k2"]
  = compute_cache_key [Element "other/x.bst" "failed" "k2";
                       Element "" "" "k1"].
Proof.
  apply cache_key_depends_on_keys_only. cbn. apply perm_swap.
Defined.

(** * Further properties of the script *)

(** ** Reading the plan back *)

Lemma occurs_char_cons (a c : ascii) (r : string) :
  occurs (String a "") (String c r) = Ascii.eqb c a || occurs (String a "") r.
Proof.
  cbn [occurs String.prefix].
  destruct (ascii_dec a c) as [<-|Hne].
  - rewrite Ascii.eqb_refl. by destruct r.
  - destruct (Ascii.eqb_spec c a); [by subst|done].
Qed.

Lemma occurs_char_app (a : ascii) (s t : string) :
  occurs (String a "") (s +:+ t)
  = occurs (String a "") s || occurs (String a "") t.
Proof.
  induction s as [|c s IH].
  - change ("" +:+ t) with t. by destruct t.
  - change (String c s +:+ t) with (String c (s +:+ t)).
    by rewrite !occurs_char_cons, IH, orb_assoc.
Qed.

(** A field without a bar, then the separator: the field is split off. *)
Lemma split_field (a rest : string) :
  occurs "|" a = false ->
  Py.split_go "||" 0 (a +:+ "||" +:+ rest) = a :: Py.split_go "||" 0 rest.
Proof.
  induction a as [|c a IH]; intros Ha.
  - change ("" +:+ "||" +:+ rest) with ("||" +:+ rest).
    change ("||" +:+ rest) with (String "|" (String "|" rest)).
    cbn [Py.split_go]. change (String "|" (String "|" rest)) with ("||" +:+ rest).
    by rewrite prefix_app.
  - rewrite occurs_char_cons in Ha. apply orb_false_elim in Ha as [Hc Ha].
    change (String c a +:+ "||" +:+ rest)
      with (String c (a +:+ "||" +:+ rest)).
    cbn [Py.split_go]. rewrite (IH Ha).
    replace (String.prefix "||" (String c (a +:+ "||" +:+ rest))) with false;
      [done|].
    cbn [String.prefix]. destruct (ascii_dec "|" c) as [<-|]; [|done].
    by rewrite Ascii.eqb_refl in Hc.
Qed.

Lemma split_last_field (a : string) :
  occurs "|" a = false -> Py.split_go "||" 0 a = [a].
Proof.
  induction a as [|c a IH]; intros Ha; [done|].
  rewrite occurs_char_cons in Ha. apply orb_false_elim in Ha as [Hc Ha].
  cbn [Py.split_go]. rewrite (IH Ha).
  replace (String.prefix "||" (String c a)) with false; [done|].
  cbn [String.prefix]. destruct (ascii_dec "|" c) as [<-|]; [|done].
  by rewrite Ascii.eqb_refl in Hc.
Qed.

Lemma fields_format_line (e : element) :
  occurs "|" (e_name e) = false -> occurs "|" (e_state e) = false ->
  occurs "|" (e_key e) = false ->
  fields (format_line e) = [e_name e; e_state e; e_key e].
Proof.
  intros Hn Hs Hk. unfold fields, format_line, Py.split.
  by rewrite (split_field _ _ Hn), (split_field _ _ Hs), (split_last_field _ Hk).
Qed.

Lemma retained_format_line (e : element) :
  printable e -> retained [format_line e] = [e].
Proof.
  intros (Hn & Hs & Hk & _ & _ & _ & Hsn & Hss & Hsk & Hc).
  rewrite retained_one. unfold well_formed, element_of_line.
  rewrite (fields_format_line e Hn Hs Hk). cbn -[Py.strip String.eqb].
  rewrite Hsn, Hss, Hsk.
  destruct (String.eqb_spec (e_state e) "cached"); [done|]. by destruct e.
Qed.

(** ** White space around the fields *)

Lemma rstrip_cons (c : ascii) (r : string) :
  Py.rstrip (String c r)
  = match Py.rstrip r with
    | EmptyString => if Py.is_space c then "" else String c ""
    | String d r' => String c (String d r')
    end.
Proof. reflexivity. Qed.

Lemma rstrip_idemp (s : string) : Py.rstrip (Py.rstrip s) = Py.rstrip s.
Proof.
  induction s as [|c r IH]; [done|]. rewrite rstrip_cons.
  destruct (Py.rstrip r) as [|d r'] eqn:Hr.
  - destruct (Py.is_space c) eqn:Hc; [done|].
    rewrite rstrip_cons. cbn [Py.rstrip]. by rewrite Hc.
  - by rewrite rstrip_cons, IH.
Qed.

Lemma rstrip_head (c : ascii) (r : string) :
  Py.is_space c = false -> exists r', Py.rstrip (String c r) = String c r'.
Proof.
  intros Hc. cbn [Py.rstrip]. rewrite Hc.
  destruct (Py.rstrip r); by eexists.
Qed.

(** Stripping a stripped string changes nothing. *)
Lemma strip_idemp (s : string) : Py.strip (Py.strip s) = Py.strip s.
Proof.
  unfold Py.strip.
  destruct (lstrip_cases s) as [->|(c & r & -> & Hc)]; [done|].
  destruct (rstrip_head c r Hc) as [r' Hr]. rewrite Hr.
  cbn [Py.lstrip]. rewrite Hc, <- Hr. apply rstrip_idemp.
Qed.

Lemma element_of_line_stripped (line : string) :
  let e := element_of_line line in
  Py.strip (e_name e) = e_name e
  /\ Py.strip (e_state e) = e_state e
  /\ Py.strip (e_key e) = e_key e.
Proof.
  unfold element_of_line. cbn [e_name e_state e_key].
  rewrite !strip_idemp. split; [done|]. split; [done|].
  destruct (fields line !! 2%nat); [apply strip_idemp | done].
Qed.

Lemma get_build_plan_retained (lines : list string) :
  get_build_plan (Return lines) = (Return (retained lines), []).
Proof. unfold get_build_plan. by rewrite plan_loop_spec. Qed.

Lemma retained_app (l1 l2 : list string) :
  retained (l1 ++ l2) = retained l1 ++ retained l2.
Proof.
  unfold retained. by rewrite !List.filter_app, map_app, List.filter_app.
Qed.

Lemma retained_format_lines (elements : list element) :
  Forall printable elements -> retained (map format_line elements) = elements.
Proof.
  induction 1 as [|e l He _ IH]; [done|].
  cbn [map]. by rewrite retained_cons, (retained_format_line e He), IH.
Qed.

Lemma no_line_break_app (s t : string) :
  no_line_break (s +:+ t) = no_line_break s && no_line_break t.
Proof.
  induction s as [|c s IH]; [done|].
  change (String c s +:+ t) with (String c (s +:+ t)).
  cbn [no_line_break]. by rewrite IH, andb_assoc.
Qed.

Lemma no_line_break_format_line (e : element) :
  printable e -> no_line_break (format_line e) = true.
Proof.
  intros (_ & _ & _ & Hn & Hs & Hk & _). unfold format_line.
  by rewrite !no_line_break_app, Hn, Hs, Hk.
Qed.

(** A line without a line end inside, then a line feed: the line is cut
    off there. *)
Lemma splitlines_line (line rest : string) :
  no_line_break line = true ->
  Py.splitlines (line +:+ newline +:+ rest) = line :: Py.splitlines rest.
Proof.
  induction line as [|c line IH]; intros Hl.
  - change ("" +:+ newline +:+ rest) with (String "010" rest).
    by destruct rest.
  - cbn [no_line_break] in Hl. apply andb_prop in Hl as [Hc Hl].
    change (String c line +:+ newline +:+ rest)
      with (String c (line +:+ newline +:+ rest)).
    cbn [Py.splitlines]. rewrite (IH Hl).
    by destruct (Py.is_line_break c).
Qed.

Lemma splitlines_stdout_of (elements : list element) :
  Forall printable elements ->
  Py.splitlines (stdout_of elements) = map format_line elements.
Proof.
  induction 1 as [|e l He _ IH]; [done|].
  cbn [stdout_of map].
  by rewrite splitlines_line, IH by by apply no_line_break_format_line.
Qed.

(** X1: the filter reads back what the format writes.  For elements whose
    fields hold no vertical bar, no character that ends a line and no white
    space around them, and whose state is not "cached", cutting the standard
    output of [bst show] into lines and parsing them returns the elements,
    in order, and writes nothing to stderr. *)
Theorem plan_reads_back (elements : list element) :
  Forall printable elements ->
  get_build_plan (Return (Py.splitlines (stdout_of elements)))
  = (Return elements, []).
Proof.
  intros Hall.
  by rewrite splitlines_stdout_of, get_build_plan_retained,
     retained_format_lines.
Qed.

Lemma plan_reads_back_witness :
  let elements := [Element "core/a.bst" "waiting" "k1";
                   Element "b.bst" "buildable" ""] in
  get_build_plan (Return (Py.splitlines (stdout_of elements)))
  = (Return elements, []).
Proof.
  apply plan_reads_back.
  repeat apply List.Forall_cons; try apply List.Forall_nil;
    unfold printable; repeat split; try reflexivity; discriminate.
Defined.

(** X2: no element the filter returns is cached, and none of its fields has
    white space around it: each field is its own [strip]. *)
Theorem plan_elements_clean (lines : list string) :
  exists elements,
    get_build_plan (Return lines) = (Return elements, [])
    /\ Forall (fun e => e_state e <> "cached"
                        /\ Py.strip (e_name e) = e_name e
                        /\ Py.strip (e_state e) = e_state e
                        /\ Py.strip (e_key e) = e_key e) elements.
Proof.
  exists (retained lines). split; [apply get_build_plan_retained|].
  apply List.Forall_forall. intros e He. unfold retained in He.
  apply List.filter_In in He as [He Hc].
  apply List.in_map_iff in He as (line & <- & _).
  split; [|apply element_of_line_stripped].
  intros Heq. rewrite Heq in Hc. discriminate.
Qed.

(** X3: the filter works line by line: the plan of two outputs put one after
    the other is the plan of the first followed by the plan of the second. *)
Theorem plan_of_concatenation (lines1 lines2 : list string) :
  exists elements1 elements2,
    get_build_plan (Return lines1) = (Return elements1, [])
    /\ get_build_plan (Return lines2) = (Return elements2, [])
    /\ get_build_plan (Return (lines1 ++ lines2))
       = (Return (elements1 ++ elements2), []).
Proof.
  exists (retained lines1), (retained lines2).
  by rewrite !get_build_plan_retained, retained_app.
Qed.

(** X4: only the first three fields of a line are read: two lines whose
    first three fields agree give the same plan. *)
Theorem plan_ignores_further_fields (line1 line2 : string) :
  take 3 (fields line1) = take 3 (fields line2) ->
  get_build_plan (Return [line1]) = get_build_plan (Return [line2]).
Proof.
  intros Heq. rewrite !get_build_plan_retained, !retained_one.
  unfold well_formed, element_of_line.
  destruct (fields line1) as [|a1 [|b1 [|c1 r1]]],
           (fields line2) as [|a2 [|b2 [|c2 r2]]];
    cbn -[Py.strip String.eqb] in *; by simplify_eq.
Qed.

Lemma plan_ignores_further_fields_witness :
  get_build_plan (Return ["a.bst||waiting||k1||more||and more"])
  = get_build_plan (Return ["a.bst||waiting||k1"]).
Proof.
  apply plan_ignores_further_fields. reflexivity.
Defined.

(** ** More on [chunk_list] *)

(** X5: with at least as many chunks as elements, [chunk_list] puts every
    element alone in the chunk of its index and leaves the other chunks
    empty (the empty chunks [main] avoids by capping the count). *)
Theorem chunk_list_more_chunks_than_elements {A} (data : list A) (n : Z) :
  (Z.of_nat (length data) <= n)%Z ->
  chunk_list data n
  = map (fun i => option_list (data !! i)) (seq 0 (Z.to_nat n)).
Proof.
  intros Hn. unfold chunk_list, Py.range.
  apply List.map_ext_in. intros i Hi%List.in_seq.
  apply list_eq. intros k. rewrite slice_step_lookup by lia.
  destruct k as [|k].
  - rewrite Nat.add_0_r. by destruct (data !! i).
  - rewrite (lookup_ge_None_2 data) by (simpl; nia).
    by destruct (data !! i).
Qed.

Lemma chunk_list_more_chunks_than_elements_witness :
  chunk_list ["a"; "b"] 4
  = map (fun i => option_list (["a"; "b"] !! i)) (seq 0 (Z.to_nat 4)).
Proof.
  apply chunk_list_more_chunks_than_elements. simpl. lia.
Defined.

(** X6: round-robin assignment: for a chunk count n >= 1 the element of
    index j is in chunk j mod n, at position j / n. *)
Theorem round_robin_assignment {A} (data : list A) (n : Z) (j : nat) (x : A) :
  (1 <= n)%Z -> data !! j = Some x ->
  exists c, chunk_list data n !! (j mod Z.to_nat n)%nat = Some c
            /\ c !! (j / Z.to_nat n)%nat = Some x.
Proof.
  intros Hn Hx.
  assert (Hm : (j mod Z.to_nat n < Z.to_nat n)%nat)
    by (apply Nat.mod_upper_bound; lia).
  eexists. split; [by apply chunk_list_lookup|].
  rewrite slice_step_lookup by lia. rewrite <- Hx. f_equal.
  pose proof (Nat.div_mod_eq j (Z.to_nat n)). lia.
Qed.

Lemma round_robin_assignment_witness :
  exists c, chunk_list ["a"; "b"; "c"; "d"; "e"] 2 !! (3 mod Z.to_nat 2)%nat
            = Some c
            /\ c !! (3 / Z.to_nat 2)%nat = Some "d".
Proof.
  apply round_robin_assignment; [lia | reflexivity].
Defined.

(** X7: the chunks are balanced: for a chunk count n >= 1 a later chunk is
    never longer than an earlier one and at most one element shorter, and
    the sizes add up to the size of the list. *)
Theorem chunk_sizes_balanced {A} (data : list A) (n : Z) :
  (1 <= n)%Z ->
  length (concat (chunk_list data n)) = length data
  /\ forall (i j : nat) (ci cj : list A),
       (i <= j)%nat ->
       chunk_list data n !! i = Some ci -> chunk_list data n !! j = Some cj ->
       (length cj <= length ci <= length cj + 1)%nat.
Proof.
  intros Hn. split.
  - by rewrite (chunk_list_concat_perm data n Hn).
  - intros i j ci cj Hij [Hi ->]%chunk_list_lookup_inv
                        [Hj ->]%chunk_list_lookup_inv.
    rewrite !slice_step_length by done.
    destruct (Nat.ltb_spec i (length data mod Z.to_nat n)),
             (Nat.ltb_spec j (length data mod Z.to_nat n)); lia.
Qed.

Lemma chunk_sizes_balanced_witness :
  length (concat (chunk_list ["a"; "b"; "c"; "d"; "e"] 3)) = 5%nat
  /\ forall (i j : nat) (ci cj : list string),
       (i <= j)%nat ->
       chunk_list ["a"; "b"; "c"; "d"; "e"] 3 !! i = Some ci ->
       chunk_list ["a"; "b"; "c"; "d"; "e"] 3 !! j = Some cj ->
       (length cj <= length ci <= length cj + 1)%nat.
Proof.
  apply (chunk_sizes_balanced ["a"; "b"; "c"; "d"; "e"] 3). lia.
Defined.

(** ** More on [make_chunk_name] *)

Lemma all_digits_dash (s t : string) : all_digits (s +:+ String "-" t) = false.
Proof.
  induction s as [|c s IH]; [done|].
  change (String c s +:+ String "-" t) with (String c (s +:+ String "-" t)).
  cbn [all_digits]. by destruct (Ascii.is_nat c).
Qed.

(** X8: the name tells the index: for indices of at least 0, two element
    lists, empty or not, get the same name only under the same index. *)
Theorem make_chunk_name_index_inj (i j : Z) (c1 c2 : list element) :
  (0 <= i)%Z -> (0 <= j)%Z ->
  make_chunk_name i c1 = make_chunk_name j c2 -> i = j.
Proof.
  intros Hi Hj Heq.
  destruct c1 as [|e1 c1], c2 as [|e2 c2].
  - unfold make_chunk_name in Heq.
    by apply (inj (String.app "chunk")), str_of_int_inj in Heq.
  - unfold make_chunk_name in Heq. apply (inj (String.app "chunk")) in Heq.
    pose proof (str_of_int_digits i Hi) as Hd.
    rewrite Heq in Hd.
    change ("-" +:+ ?l) with (String "-" l) in Hd.
    by rewrite all_digits_dash in Hd.
  - unfold make_chunk_name in Heq. apply (inj (String.app "chunk")) in Heq.
    pose proof (str_of_int_digits j Hj) as Hd.
    rewrite <- Heq in Hd.
    change ("-" +:+ ?l) with (String "-" l) in Hd.
    by rewrite all_digits_dash in Hd.
  - by apply (make_chunk_name_inj i j (e1 :: c1) (e2 :: c2)).
Qed.

Lemma make_chunk_name_index_inj_witness : 3%Z = 3%Z.
Proof.
  apply (make_chunk_name_index_inj 3 3
           [Element "core/x.bst" "waiting" "k1"]
           [Element "x.bst" "buildable" ""]); [lia | lia | reflexivity].
Defined.

Lemma string_of_uint_no_slash (d : Decimal.uint) :
  occurs "/" (NilEmpty.string_of_uint d) = false.
Proof.
  induction d; cbn [NilEmpty.string_of_uint]; [done|..];
    by rewrite occurs_char_cons, IHd.
Qed.

Lemma str_of_int_no_slash (i : Z) : occurs "/" (Py.str_of_int i) = false.
Proof.
  unfold Py.str_of_int, NilEmpty.string_of_int.
  destruct (Z.to_int i); [apply string_of_uint_no_slash|].
  by rewrite occurs_char_cons, string_of_uint_no_slash.
Qed.

Lemma last_segment_no_slash (s : string) : occurs "/" (last_segment s) = false.
Proof.
  induction s as [|c r IH]; [done|]. cbn [last_segment].
  by destruct (occurs "/" (String c r)) eqn:Ho.
Qed.

Lemma replace_go_no_slash (old new : string) (skip : nat) (s : string) :
  occurs "/" new = false -> occurs "/" s = false ->
  occurs "/" (Py.replace_go old new skip s) = false.
Proof.
  intros Hnew. revert skip. induction s as [|c r IH]; intros skip Hs; [done|].
  rewrite occurs_char_cons in Hs. apply orb_false_elim in Hs as [Hc Hr].
  cbn [Py.replace_go]. destruct skip as [|k]; [|by apply IH].
  destruct (String.prefix old (String c r)).
  - by rewrite occurs_char_app, Hnew, IH.
  - by rewrite occurs_char_cons, Hc, IH.
Qed.

(** X9: no chunk name holds a slash, whatever the index and the elements:
    the directories of the first element's name never reach the name. *)
Theorem make_chunk_name_no_slash (index : Z) (elements : list element) :
  occurs "/" (make_chunk_name index elements) = false.
Proof.
  unfold make_chunk_name. destruct elements as [|e rest].
  - by rewrite occurs_char_app, str_of_int_no_slash.
  - rewrite last_part_rsplit1, !occurs_char_app, str_of_int_no_slash.
    unfold Py.replace.
    by rewrite replace_go_no_slash by (done || apply last_segment_no_slash).
Qed.

(** ** More on [compute_cache_key] *)

Lemma nibble_is_hex (w i : Z) : is_hex (Sha256.nibble w i) = true.
Proof.
  unfold Sha256.nibble.
  change 15%Z with (Z.ones 4). rewrite Z.land_ones by lia.
  pose proof (Z.mod_pos_bound (Z.shiftr w (4 * i)) (2 ^ 4) ltac:(lia)) as Hb.
  generalize dependent (Z.shiftr w (4 * i) mod 2 ^ 4)%Z. intros m Hb.
  assert (Hm : (m = 0 \/ m = 1 \/ m = 2 \/ m = 3 \/ m = 4 \/ m = 5 \/ m = 6
                \/ m = 7 \/ m = 8 \/ m = 9 \/ m = 10 \/ m = 11 \/ m = 12
                \/ m = 13 \/ m = 14 \/ m = 15)%Z) by lia.
  repeat (destruct Hm as [->|Hm]; [reflexivity|]). by subst.
Qed.

Lemma all_hex_hex32 (w : Z) (k : string) :
  all_hex (Sha256.hex32 w k) = all_hex k.
Proof.
  unfold Sha256.hex32. cbn [all_hex]. by rewrite !nibble_is_hex.
Qed.

Lemma hexdigest_all_hex (msg : list Z) : all_hex (Sha256.hexdigest msg) = true.
Proof. unfold Sha256.hexdigest. cbn zeta. by rewrite !all_hex_hex32. Qed.

(** X10: the composite key is the empty string when no element has a key,
    and otherwise 64 lower-case hexadecimal digits. *)
Theorem cache_key_format (elements : list element) :
  (Forall (fun e => e_key e = "") elements
   /\ compute_cache_key elements = "")
  \/ (Exists (fun e => e_key e <> "") elements
      /\ String.length (compute_cache_key elements) = 64%nat
      /\ all_hex (compute_cache_key elements) = true).
Proof.
  destruct (decide (Forall (fun e => e_key e = "") elements)) as [Hall|Hex].
  - left. split; [done|]. by apply compute_cache_key_empty_iff.
  - right. split; [by apply not_Forall_Exists; [apply _|]|].
    rewrite <- compute_cache_key_empty_iff in Hex.
    rewrite compute_cache_key_unfold in *.
    destruct (Py.sorted (nonempty_keys elements)); [done|].
    split; [apply hexdigest_length | apply hexdigest_all_hex].
Qed.

(** X11: an element without a key does not count: putting it anywhere in a
    list leaves the composite key of the list as it was. *)
Theorem cache_key_ignores_keyless (e : element) (l1 l2 : list element) :
  e_key e = "" ->
  compute_cache_key (l1 ++ e :: l2) = compute_cache_key (l1 ++ l2).
Proof.
  intros He. apply compute_cache_key_perm. unfold nonempty_keys.
  rewrite !map_app, !List.filter_app. cbn [map List.filter].
  by rewrite He.
Qed.

Lemma cache_key_ignores_keyless_witness :
  compute_cache_key ([Element "a" "waiting" "k1"]
                     ++ Element "d" "waiting" "" :: [Element "c" "waiting" "k3"])
  = compute_cache_key ([Element "a" "waiting" "k1"]
                       ++ [Element "c" "waiting" "k3"]).
Proof.
  apply cache_key_ignores_keyless. reflexivity.
Defined.

(** ** More on [main] *)

(** X12: the split loses nothing for any integer core split: core followed
    by leaf is the whole sequence.  A negative core split counts from the
    end, as Python slices do: the leaf group is then the last -coreSplit
    elements (all of them when there are fewer). *)
Theorem split_for_any_integer (elements : list element) (core_split : Z) :
  core_elements elements core_split ++ leaf_elements elements core_split
  = elements
  /\ Z.of_nat (length (leaf_elements elements core_split))
     = (if (core_split <? 0)%Z
        then Z.min (- core_split) (Z.of_nat (length elements))
        else Z.max 0 (Z.of_nat (length elements) - core_split))%Z.
Proof.
  split; [apply slice_to_from|].
  unfold leaf_elements, Py.slice_from.
  destruct (Z.ltb_spec core_split 0); rewrite length_skipn; lia.
Qed.

Lemma chunks_of_none (elements : list element) (core_split num_chunks : Z) :
  (num_chunks <= 0)%Z \/ (Z.of_nat (length elements) <= core_split)%Z ->
  chunks_of elements core_split num_chunks = [].
Proof.
  intros Hcase. unfold chunks_of, split_leaves.
  destruct (leaf_elements elements core_split) as [|e leaf] eqn:Hleaf; [done|].
  destruct Hcase as [Hn|Hc].
  - by destruct (Z.ltb_spec 0 num_chunks); [lia|].
  - exfalso. unfold leaf_elements in Hleaf.
    rewrite slice_from_nonneg in Hleaf by lia.
    rewrite drop_ge in Hleaf by lia. done.
Qed.

(** X13: with a chunk count of 0 or less, or a core split that takes every
    element, the matrix and the cache keys are empty. *)
Theorem matrix_empty (target : string) (num_chunks core_split : Z)
    (elements : list element) :
  (num_chunks <= 0)%Z \/ (Z.of_nat (length elements) <= core_split)%Z ->
  r_matrix (out (main_body target num_chunks core_split elements)) = ∅
  /\ r_cache_keys (out (main_body target num_chunks core_split elements)) = ∅.
Proof.
  intros Hcase. rewrite main_body_out. cbn [r_matrix r_cache_keys].
  by rewrite (chunks_of_none _ _ _ Hcase).
Qed.

Lemma matrix_empty_witness :
  let elements := [Element "a" "waiting" "k1"; Element "c" "waiting" "k3"] in
  r_matrix (out (main_body "t" 4 200 elements)) = ∅
  /\ r_cache_keys (out (main_body "t" 4 200 elements)) = ∅.
Proof.
  apply matrix_empty. right. simpl. lia.
Defined.

(** X14: the entry of a chunk, read off the leaf group.  With a chunk count
    above 0, every leaf element e of an index i below the count and below the
    size of the leaf group opens chunk i: the matrix maps the name made from
    i and e to the targets of every m-th leaf element from i on, m being the
    smaller of the count and the size, and the cache keys hold the composite
    key of these elements unless it is empty. *)
Theorem matrix_entry_of_leaf (target : string) (num_chunks core_split : Z)
    (elements : list element) (i : nat) (e : element) :
  (Z.of_nat i < num_chunks)%Z ->
  leaf_elements elements core_split !! i = Some e ->
  let leaf := leaf_elements elements core_split in
  let r := out (main_body target num_chunks core_split elements) in
  let chunk :=
    Py.slice_step leaf i
      (Z.to_nat (Z.min num_chunks (Z.of_nat (length leaf)))) in
  chunk !! 0%nat = Some e
  /\ r_matrix r !! make_chunk_name (Z.of_nat i) [e] = Some (targets chunk)
  /\ r_cache_keys r !! make_chunk_name (Z.of_nat i) [e] = cache_entry chunk.
Proof.
  intros Hi He leaf r chunk.
  assert (HiL : (i < length leaf)%nat) by (by eapply lookup_lt_Some).
  assert (Hhead : chunk !! 0%nat = Some e).
  { unfold chunk. rewrite slice_step_lookup by lia.
    by rewrite Nat.add_0_r. }
  assert (Hchunks : chunks_of elements core_split num_chunks !! i
                    = Some chunk).
  { unfold chunks_of, split_leaves. fold leaf.
    destruct leaf as [|e0 leaf0] eqn:Hleaf; [simpl in HiL; lia|].
    destruct (Z.ltb_spec 0 num_chunks); [|lia]. cbn [fst].
    rewrite chunk_list_lookup; [done|]. simpl length in *. lia. }
  assert (Hname : make_chunk_name (Z.of_nat i) chunk
                  = make_chunk_name (Z.of_nat i) [e]).
  { destruct chunk as [|e' rest]; [done|]. by simplify_eq/=. }
  assert (Hmap : chunk_map (chunks_of elements core_split num_chunks)
                 !! make_chunk_name (Z.of_nat i) [e] = Some chunk).
  { apply chunk_map_lookup. exists i. split; [done|]. split; [|done].
    intros Hnil. by rewrite Hnil in Hhead. }
  split; [done|]. unfold r. rewrite main_body_out. cbn [r_matrix r_cache_keys].
  destruct (build_matrix_spec (chunks_of elements core_split num_chunks))
    as (-> & -> & _).
  by rewrite lookup_fmap, lookup_omap, Hmap.
Qed.

Lemma matrix_entry_of_leaf_witness :
  let elements := [Element "a.bst" "waiting" "k1";
                   Element "libs/c.bst" "waiting" "k3";
                   Element "d.bst" "waiting" "";
                   Element "e.bst" "waiting" "k5"] in
  let leaf := leaf_elements elements 1 in
  let r := out (main_body "t" 2 1 elements) in
  let chunk :=
    Py.slice_step leaf 0 (Z.to_nat (Z.min 2 (Z.of_nat (length leaf)))) in
  chunk !! 0%nat = Some (Element "libs/c.bst" "waiting" "k3")
  /\ r_matrix r
     !! make_chunk_name (Z.of_nat 0) [Element "libs/c.bst" "waiting" "k3"]
     = Some (targets chunk)
  /\ r_cache_keys r
     !! make_chunk_name (Z.of_nat 0) [Element "libs/c.bst" "waiting" "k3"]
     = cache_entry chunk.
Proof.
  apply (matrix_entry_of_leaf "t" 2 1); [simpl; lia | reflexivity].
Defined.

(** X15: [main] fails only when [bst] did.  On every output of [bst show] it
    prints the object made from the retained elements and writes one line to
    stderr, the number of these elements; when [subprocess.run] raises, the
    exception leaves [main] and nothing is written. *)
Theorem main_outcome (target : string) (num_chunks core_split : Z) :
  (forall lines,
     main target num_chunks core_split (Return lines)
     = (Return (main_body target num_chunks core_split (retained lines)),
        ["Found " +:+ Py.str_of_int (Z.of_nat (length (retained lines)))
         +:+ " elements to build"]))
  /\ (forall e, main target num_chunks core_split (Raise e) = (Raise e, [])).
Proof.
  split; [|done]. intros lines. unfold main.
  by rewrite get_build_plan_retained.
Qed.

(** ** The strings of targets *)

Lemma split_space_field (a rest : string) :
  occurs " " a = false ->
  Py.split_go " " 0 (a +:+ " " +:+ rest) = a :: Py.split_go " " 0 rest.
Proof.
  induction a as [|c a IH]; intros Ha.
  - change ("" +:+ " " +:+ rest) with (" " +:+ rest).
    change (" " +:+ rest) with (String " " rest).
    cbn [Py.split_go]. change (String " " rest) with (" " +:+ rest).
    by rewrite prefix_app.
  - rewrite occurs_char_cons in Ha. apply orb_false_elim in Ha as [Hc Ha].
    change (String c a +:+ " " +:+ rest) with (String c (a +:+ " " +:+ rest)).
    cbn [Py.split_go]. rewrite (IH Ha).
    replace (String.prefix " " (String c (a +:+ " " +:+ rest))) with false;
      [done|].
    cbn [String.prefix]. destruct (ascii_dec " " c) as [<-|]; [|done].
    by rewrite Ascii.eqb_refl in Hc.
Qed.

Lemma split_space_last (a : string) :
  occurs " " a = false -> Py.split_go " " 0 a = [a].
Proof.
  induction a as [|c a IH]; intros Ha; [done|].
  rewrite occurs_char_cons in Ha. apply orb_false_elim in Ha as [Hc Ha].
  cbn [Py.split_go]. rewrite (IH Ha).
  replace (String.prefix " " (String c a)) with false; [done|].
  cbn [String.prefix]. destruct (ascii_dec " " c) as [<-|]; [|done].
  by rewrite Ascii.eqb_refl in Hc.
Qed.

Lemma split_join_space (names : list string) :
  Forall (fun s => occurs " " s = false) names -> names <> [] ->
  Py.split " " (Py.join " " names) = names.
Proof.
  unfold Py.split, Py.join.
  induction 1 as [|x l Hx Hl IH]; intros Hne; [done|].
  destruct l as [|y l].
  - cbn [String.concat]. by apply split_space_last.
  - change (String.concat " " (x :: y :: l))
      with (x +:+ " " +:+ String.concat " " (y :: l)).
    rewrite split_space_field by done. by rewrite IH.
Qed.

(** X16: the strings [main] prints for the core and for a chunk can be read
    back: for a group that is not empty and whose names hold no space,
    splitting the string at the spaces gives the names, in order. *)
Theorem targets_split (group : list element) :
  group <> [] ->
  Forall (fun e => occurs " " (e_name e) = false) group ->
  Py.split " " (targets group) = map e_name group.
Proof.
  intros Hne Hall. unfold targets. apply split_join_space.
  - apply List.Forall_map. by apply Hall.
  - by destruct group.
Qed.

Lemma targets_split_witness :
  Py.split " " (targets [Element "core/a.bst" "waiting" "k1";
                         Element "b.bst" "waiting" ""])
  = map e_name [Element "core/a.bst" "waiting" "k1";
                Element "b.bst" "waiting" ""].
Proof.
  apply targets_split; [discriminate|].
  repeat apply List.Forall_cons; try apply List.Forall_nil; reflexivity.
Defined.

(** ** The arguments of [main] *)

(** X17: bad arguments end the run before the build plan is used.  With
    one or two arguments the run writes the usage line, which names
    [sys.argv[0]], and exits with status 1; with a chunk count that [int]
    refuses, or a core split that it refuses after a chunk count it read,
    the exception of [int] ends the run and nothing is written.  In each
    case no object is printed, whatever [bst] would give. *)
Theorem main_argv_bad_arguments (int : string -> outcome Z)
    (bst : outcome (list string)) :
  (forall prog,
     main_argv int [prog] bst
     = (Exited 1, ["Usage: " +:+ prog +:+ " <target> <num_chunks> [core_split]"]))
  /\ (forall prog target,
        main_argv int [prog; target] bst
        = (Exited 1,
           ["Usage: " +:+ prog +:+ " <target> <num_chunks> [core_split]"]))
  /\ (forall prog target a2 more e,
        int a2 = Raise e ->
        main_argv int (prog :: target :: a2 :: more) bst = (Traceback e, []))
  /\ (forall prog target a2 a3 more n e,
        int a2 = Return n -> int a3 = Raise e ->
        main_argv int (prog :: target :: a2 :: a3 :: more) bst
        = (Traceback e, [])).
Proof.
  split; [done|]. split; [done|]. split.
  - intros prog target a2 more e He. unfold main_argv, read_args.
    cbn -[main]. by rewrite He.
  - intros prog target a2 a3 more n e Hn He. unfold main_argv, read_args.
    cbn -[main]. by rewrite Hn, He.
Qed.

Lemma main_argv_bad_arguments_witness :
  let int := fun s : string =>
               if String.eqb s "4" then Return 4%Z else Raise ValueError in
  main_argv int ["prog"; "target.bst"; "many"] (Return ["a||waiting||k"])
  = (Traceback ValueError, [])
  /\ main_argv int ["prog"; "target.bst"; "4"; "some"]
       (Return ["a||waiting||k"])
     = (Traceback ValueError, []).
Proof.
  split.
  - apply (main_argv_bad_arguments _ (Return ["a||waiting||k"])). reflexivity.
  - eapply (main_argv_bad_arguments _ (Return ["a||waiting||k"]));
      reflexivity.
Defined.

(** X18: the core split is 200 when it is not given, and arguments after the
    fourth are not read: given that [int] reads "200" as 200, three
    arguments run as the same three followed by "200", and any arguments run
    as their first four. *)
Theorem main_argv_defaults (int : string -> outcome Z)
    (prog target a2 a3 : string) (more : list string)
    (bst : outcome (list string)) :
  int "200" = Return 200%Z ->
  main_argv int [prog; target; a2] bst
  = main_argv int [prog; target; a2; "200"] bst
  /\ main_argv int (prog :: target :: a2 :: a3 :: more) bst
     = main_argv int [prog; target; a2; a3] bst.
Proof.
  intros H200. unfold main_argv, read_args. cbn -[main].
  rewrite H200. by destruct (int a2).
Qed.

Lemma main_argv_defaults_witness :
  let int := fun s : string =>
               if String.eqb s "200" then Return 200%Z
               else if String.eqb s "4" then Return 4%Z
               else Raise ValueError in
  main_argv int ["prog"; "t.bst"; "4"] (Return ["a||waiting||k"])
  = main_argv int ["prog"; "t.bst"; "4"; "200"] (Return ["a||waiting||k"])
  /\ main_argv int ("prog" :: "t.bst" :: "4" :: "1" :: ["x"; "y"])
       (Return ["a||waiting||k"])
     = main_argv int ["prog"; "t.bst"; "4"; "1"] (Return ["a||waiting||k"]).
Proof.
  apply (main_argv_defaults _ "prog" "t.bst" "4" "1" ["x"; "y"]). reflexivity.
Defined.
